(** * The turn pipeline of botbuilder-js: middleware chain, channel
      capabilities, turn context and adapter entry points

    Sources embedded here:
    - [libraries/botbuilder-core/src/middlewareSet.ts]   ([MiddlewareSet.use], [MiddlewareSet.run])
    - [libraries/botbuilder-choices/src/channel.ts]      ([supportsSuggestedActions], [supportsCardActions])
    - [libraries/botbuilder-core/lib/turnContext.d.ts] and
      [libraries/botbuilder/lib/botFrameworkAdapter.d.ts] are declaration
      files: the bodies of the functions they declare are modelled from the
      specification and marked as such.

    Asynchronous code is embedded sequentially: a promise is represented by
    the way it settles, and [await p] runs the computation that produces [p]
    to its settlement.  Interceptors that start [next()] without awaiting it
    are outside this embedding. *)

From Stdlib Require Import List ZArith String Bool Arith Lia.
Import ListNotations.
Local Open Scope string_scope.
Local Open Scope list_scope.

(** ** JavaScript values, errors and completions *)

(** A function value is a reference to a function object. *)
Definition FnId := nat.

(** The values a caller can hand to [MiddlewareSet.use].  An object is
    represented by the value of its [onTurn] property ([VUndefined] when the
    object has no such property). *)
Inductive Value : Type :=
| VUndefined
| VNull
| VBoolean (b : bool)
| VNumber (n : Z)
| VString (s : string)
| VFunction (f : FnId)
| VObject (onTurn : Value).

Inductive TypeTag := TUndefined | TObject | TBoolean | TNumber | TString | TFunction.

(** [typeof v]; note [typeof null === 'object']. *)
Definition typeOf (v : Value) : TypeTag :=
  match v with
  | VUndefined => TUndefined
  | VNull => TObject
  | VBoolean _ => TBoolean
  | VNumber _ => TNumber
  | VString _ => TString
  | VFunction _ => TFunction
  | VObject _ => TObject
  end.

(** ToBoolean, as used by [&&] and [if]. *)
Definition truthy (v : Value) : bool :=
  match v with
  | VUndefined | VNull => false
  | VBoolean b => b
  | VNumber n => negb (Z.eqb n 0)
  | VString s => negb (String.eqb s EmptyString)
  | VFunction _ | VObject _ => true
  end.

Inductive Exn : Type :=
| Error (message : string)          (* [new Error(message)] *)
| TypeError (message : string)      (* raised by the runtime itself *)
| StaleContextError                 (* use of an invalidated turn context *)
| AuthenticationError.              (* identity verification failed *)

Definition invalidPlugin : Exn :=
  Error "MiddlewareSet.use(): invalid plugin type being added.".

(** How a synchronous call completes. *)
Inductive Completion (A : Type) : Type :=
| Normal (a : A)
| Throw (e : Exn).
Arguments Normal {A} a.
Arguments Throw {A} e.

(** A promise, represented by its settlement. *)
Inductive Settled (A : Type) : Type :=
| Fulfilled (a : A)
| Rejected (e : Exn).
Arguments Fulfilled {A} a.
Arguments Rejected {A} e.

(** [Promiseable<T> = Promise<T> | T]. *)
Inductive Promiseable (A : Type) : Type :=
| Plain (a : A)
| Promise (p : Settled A).
Arguments Plain {A} a.
Arguments Promise {A} p.

(** [Promise.resolve(v)]: a promise is returned as it is, any other value
    becomes a fulfilled promise. *)
Definition promiseResolve {A} (v : Promiseable A) : Settled A :=
  match v with
  | Plain a => Fulfilled a
  | Promise p => p
  end.

(** [try { return Promise.resolve(call); } catch (err) { return Promise.reject(err); }] *)
Definition settle {A} (c : Completion (Promiseable A)) : Settled A :=
  match c with
  | Normal v => promiseResolve v
  | Throw e => Rejected e
  end.

(** ** Activities and conversation references (the fields of section 3) *)

Record Account := mkAccount { account_id : string }.

Record Activity := mkActivity {
  act_type : option string;
  act_id : option string;
  act_text : option string;
  act_channelId : option string;
  act_conversation : option Account;
  act_from : option Account;
  act_recipient : option Account;
  act_replyToId : option string;
  act_serviceUrl : option string
}.

Record ConversationReference := mkReference {
  ref_conversation : option Account;
  ref_user : option Account;
  ref_bot : option Account;
  ref_channelId : option string;
  ref_serviceUrl : option string
}.

(** ** The store *)

(** Entries of the shared execution log written by instrumented
    interceptors and handlers. *)
Inductive Event : Type :=
| Lead (i : FnId)       (* leading edge of interceptor [i] *)
| Trail (i : FnId)      (* trailing edge of interceptor [i] *)
| Cleanup (i : FnId)    (* [finally] block of interceptor [i] *)
| Handled (i : FnId)    (* interceptor [i] handled the turn by itself *)
| Logic.                (* the terminal handler ran *)

(** An element of [MiddlewareSet.middleware]: the one callable shape the
    runner deals with.  [Fn f] is a function pushed as it is; [OnTurnOf p]
    is the closure [(context, next) => plugin.onTurn(context, next)]
    created over the plugin [p]. *)
Inductive MiddlewareHandler : Type :=
| Fn (f : FnId)
| OnTurnOf (plugin : Value).

(** Phases of the per-turn state machine of the adapter. *)
Inductive Phase : Type :=
| Received | Authenticated | ContextBuilt | MiddlewareRunning
| LogicRunning | MiddlewareUnwinding | Invalidated.

(** What is handed to the transport at the end of a hook chain. *)
Inductive Payload : Type :=
| SendPayload (activities : list Activity)
| UpdatePayload (activity : Activity)
| DeletePayload (reference : ConversationReference) (activityId : option string).

Record DeliveryResult := mkDelivery { delivered_id : option string }.

(** A turn context object (the attributes of section 3). *)
Record TurnContextObj := mkContext {
  tc_activity : Activity;
  tc_responded : bool;
  tc_services : list (string * Value);
  tc_onSendActivities : list FnId;
  tc_onUpdateActivity : list FnId;
  tc_onDeleteActivity : list FnId
}.

(** A [TurnContext] value is a reference to a context object of the store. *)
Definition TurnContext := nat.

Record State := mkState {
  log : list Event;                       (* the shared execution log *)
  middleware : list MiddlewareHandler;    (* [MiddlewareSet.middleware] *)
  contexts : list TurnContextObj;         (* the turn contexts allocated so far *)
  revoked : list TurnContext;             (* the contexts that were invalidated *)
  phases : list Phase                     (* phases the adapter went through *)
}.

Definition add_log (es : list Event) (s : State) : State :=
  mkState (log s ++ es) (middleware s) (contexts s) (revoked s) (phases s).

Definition set_middleware (m : list MiddlewareHandler) (s : State) : State :=
  mkState (log s) m (contexts s) (revoked s) (phases s).

Definition set_contexts (c : list TurnContextObj) (s : State) : State :=
  mkState (log s) (middleware s) c (revoked s) (phases s).

Definition add_revoked (c : TurnContext) (s : State) : State :=
  mkState (log s) (middleware s) (contexts s) (c :: revoked s) (phases s).

Definition add_phase (p : Phase) (s : State) : State :=
  mkState (log s) (middleware s) (contexts s) (revoked s) (phases s ++ [p]).

(** ** Computations over the store *)

Definition M (A : Type) : Type := State -> A * State.

Definition ret {A} (a : A) : M A := fun s => (a, s).

Definition bind {A B} (c : M A) (k : A -> M B) : M B :=
  fun s => let (a, s') := c s in k a s'.

Notation "x <- c ;; k" := (bind c (fun x => k))
  (at level 61, c at next level, right associativity).

(** Statement sequencing: a [throw] skips the rest. *)
Definition andThen {A B} (c : M (Completion A)) (k : A -> M (Completion B))
  : M (Completion B) :=
  r <- c ;; match r with Normal a => k a | Throw e => ret (Throw e) end.

Notation "x <~ c ;; k" := (andThen c (fun x => k))
  (at level 61, c at next level, right associativity).
Notation "c ;;; k" := (andThen c (fun _ => k))
  (at level 61, right associativity).

Definition throw {A} (e : Exn) : M (Completion A) := ret (Throw e).

(** [log.push(e)] *)
Definition emit (e : Event) : M (Completion unit) :=
  fun s => (Normal tt, add_log [e] s).

(** [await p], where [p] is the promise produced by [c]. *)
Definition await {A} (c : M (Settled A)) : M (Completion A) :=
  r <- c ;; ret (match r with Fulfilled a => Normal a | Rejected e => Throw e end).

(** [try { body } finally { fin }] *)
Definition tryFinally {A} (body : M (Completion A)) (fin : M (Completion unit))
  : M (Completion A) :=
  r <- body ;;
  f <- fin ;;
  ret (match f with Normal _ => r | Throw e => Throw e end).

(** Calling an [async] function: the body runs and the call returns a
    promise that settles the way the body completes. *)
Definition async {A} (body : M (Completion A)) : M (Completion (Promiseable A)) :=
  r <- body ;;
  ret (Normal (Promise (match r with Normal a => Fulfilled a | Throw e => Rejected e end))).

(** The signature shared by function middleware and [Middleware.onTurn]:
    [(context, next: () => Promise<void>) => Promiseable<void>]. *)
Definition Handler : Type :=
  TurnContext -> M (Settled unit) -> M (Completion (Promiseable unit)).

(** The terminal handler of a chain, [() => Promiseable<void>]. *)
Definition Terminal : Type := M (Completion (Promiseable unit)).

(** ** [MiddlewareSet] (middlewareSet.ts) *)

Section MiddlewareSet.

(** The behaviour of every function object that can be registered. *)
Variable code : FnId -> Handler.

(** Reading [plugin.onTurn]: a property read throws on [null] and
    [undefined], yields the member on an object and [undefined] on the
    other values. *)
Definition getOnTurn (plugin : Value) : Completion Value :=
  match plugin with
  | VObject m => Normal m
  | VNull => Throw (TypeError "Cannot read property 'onTurn' of null")
  | VUndefined => Throw (TypeError "Cannot read property 'onTurn' of undefined")
  | _ => Normal VUndefined
  end.

(** Calling a value with [(context, next)]. *)
Definition callValue (f : Value) : Handler :=
  fun context next =>
    match f with
    | VFunction g => code g context next
    | _ => throw (TypeError "plugin.onTurn is not a function")
    end.

(** Calling an element of the middleware list. *)
Definition invoke (h : MiddlewareHandler) : Handler :=
  fun context next =>
    match h with
    | Fn f => code f context next
    | OnTurnOf plugin =>
        match getOnTurn plugin with
        | Normal m => callValue m context next
        | Throw e => throw e
        end
    end.

(** [this.middleware.push(h)] *)
Definition push (h : MiddlewareHandler) : M (Completion unit) :=
  fun s => (Normal tt, set_middleware (middleware s ++ [h]) s).

(** The body of the [forEach] callback of [use] (lines 86-94).  The first
    branch is [typeof plugin === 'function']: [VFunction] is the only value
    with that tag. *)
Definition usePlugin (plugin : Value) : M (Completion unit) :=
  match plugin with
  | VFunction f => push (Fn f)
  | _ =>
      match typeOf plugin with
      | TObject =>
          match getOnTurn plugin with
          | Normal m =>
              if truthy m then push (OnTurnOf plugin) else throw invalidPlugin
          | Throw e => throw e
          end
      | _ => throw invalidPlugin
      end
  end.

(** [Array.prototype.forEach]; an exception of the callback ends the loop. *)
Fixpoint forEach {A} (f : A -> M (Completion unit)) (l : list A) : M (Completion unit) :=
  match l with
  | [] => ret (Normal tt)
  | x :: l' => f x ;;; forEach f l'
  end.

(** [use(...middleware)].  The store holds one set, the receiver, so the
    returned [this] is rendered as a normal completion. *)
Definition use (plugins : list Value) : M (Completion unit) :=
  forEach usePlugin plugins ;;; ret (Normal tt).

(** [new MiddlewareSet(...middleware)] (lines 57 and 63-65). *)
Definition newMiddlewareSet (plugins : list Value) : M (Completion unit) :=
  fun s => use plugins (set_middleware [] s).

(** The chain from the handlers [rest] on: the first one is called with a
    [next] that runs the chain of the remaining ones. *)
Fixpoint runFrom (context : TurnContext) (next : Terminal)
    (rest : list MiddlewareHandler) : M (Settled unit) :=
  match rest with
  | [] => c <- next ;; ret (settle c)
  | h :: rest' =>
      c <- invoke h context (runFrom context next rest') ;; ret (settle c)
  end.

(** [runNext(i)] (lines 113-123) for the snapshot [handlers]: the chain of
    [handlers] from index [i].  [runNext_step] and [runNext_end] below are
    the two branches of the source. *)
Definition runNext (handlers : list MiddlewareHandler) (context : TurnContext)
    (next : Terminal) (i : nat) : M (Settled unit) :=
  runFrom context next (skipn i handlers).

(** [run(context, next)] (lines 111-125): [handlers] is the copy
    [this.middleware.slice()] taken on entry. *)
Definition run (context : TurnContext) (next : Terminal) : M (Settled unit) :=
  fun s =>
    let handlers := middleware s in
    runNext handlers context next 0 s.

(** [onTurn(context, next)] (lines 67-69). *)
Definition onTurn (context : TurnContext) (next : Terminal) : M (Settled unit) :=
  run context next.

(** *** Instrumented interceptors *)

(** [async (context, next) => { log.push(Lead i); await next(); log.push(Trail i); }],
    the shape of the usage examples of the source. *)
Definition leadTrail (i : FnId) : Handler :=
  fun _ next => async (emit (Lead i) ;;; await next ;;; emit (Trail i)).

(** [async (context, next) => { log.push(Lead i);
      try { await next(); } finally { log.push(Cleanup i); }
      log.push(Trail i); }] *)
Definition leadFinally (i : FnId) : Handler :=
  fun _ next =>
    async (emit (Lead i) ;;; tryFinally (await next) (emit (Cleanup i)) ;;; emit (Trail i)).

(** An instrumented interceptor, with a [finally] block when [guards i]. *)
Definition instrumented (guards : FnId -> bool) (i : FnId) : Handler :=
  if guards i then leadFinally i else leadTrail i.

(** [async (context, next) => { await next(); await next(); }] *)
Definition nextTwice : Handler :=
  fun _ next => async (await next ;;; await next).

(** An interceptor that never uses its [next]. *)
Definition ignoresNext (body : TurnContext -> Terminal) : Handler :=
  fun context _ => body context.

(** [async (context, next) => { log.push(Handled i); }] *)
Definition shortCircuit (i : FnId) : Handler :=
  ignoresNext (fun _ => async (emit (Handled i))).

(** [(context, next) => { throw e; }] *)
Definition throwsEarly (e : Exn) : Handler :=
  ignoresNext (fun _ => throw e).

(** [async (context, next) => { await next(); throw e; }] *)
Definition throwsLate (e : Exn) : Handler :=
  fun _ next => async (await next ;;; throw e).

(** [async (context, next) => { set.use(plugin); await next(); }] *)
Definition registers (plugin : Value) : Handler :=
  fun _ next => async (use [plugin] ;;; await next).

(** [async () => { log.push(Logic); }] *)
Definition logicOk : Terminal := async (emit Logic).

(** [async () => { log.push(Logic); throw e; }] *)
Definition logicFails (e : Exn) : Terminal := async (emit Logic ;;; throw e).

End MiddlewareSet.

(** *** Vocabulary for the statements about the chain *)

(** The canonical shape [use] gives to a plugin, when it accepts it. *)
Definition normalized (plugin : Value) : option MiddlewareHandler :=
  match plugin with
  | VFunction f => Some (Fn f)
  | VObject m => if truthy m then Some (OnTurnOf plugin) else None
  | _ => None
  end.

(** A registered function [snd entry], given to [use] as a function
    ([fst entry = false]) or as the [onTurn] member of an object. *)
Definition pluginOf (entry : bool * FnId) : Value :=
  if fst entry then VObject (VFunction (snd entry)) else VFunction (snd entry).

(** The element of the middleware list [use] makes of [pluginOf entry]. *)
Definition handlerOf (entry : bool * FnId) : MiddlewareHandler :=
  if fst entry then OnTurnOf (VObject (VFunction (snd entry))) else Fn (snd entry).

Definition emptyState : State := mkState [] [] [] [] [].

(** A function table for examples: function [0] calls [next] twice, the
    other functions are [leadTrail] interceptors. *)
Definition twiceTable (i : FnId) : Handler :=
  match i with
  | 0 => nextTwice
  | _ => leadTrail i
  end.

(** A function table for examples: function [0] returns without calling
    [next]. *)
Definition shortTable (i : FnId) : Handler :=
  match i with
  | 0 => shortCircuit 0
  | _ => leadTrail i
  end.

(** A function table for examples: function [0] throws at once, function
    [8] throws after the rest of the chain, the other even functions have a
    [finally] block. *)
Definition failingTable (e : Exn) (i : FnId) : Handler :=
  match i with
  | 0 => throwsEarly e
  | 8 => throwsLate e
  | _ => instrumented Nat.even i
  end.

(** A function table for examples: function [0] registers function [9]
    while the chain runs. *)
Definition lateTable (i : FnId) : Handler :=
  match i with
  | 0 => registers (VFunction 9)
  | _ => leadTrail i
  end.

(** *** Further interceptors and vocabulary *)

(** [try { body } catch (e) { handler(e) }] *)
Definition tryCatch {A} (body : M (Completion A)) (handler : Exn -> M (Completion A))
  : M (Completion A) :=
  r <- body ;;
  match r with
  | Normal a => ret (Normal a)
  | Throw e => handler e
  end.

(** [async (context, next) => { log.push(Lead i);
      try { await next(); } catch (e) { log.push(Handled i); }
      log.push(Trail i); }] *)
Definition leadCatch (i : FnId) : Handler :=
  fun _ next =>
    async (emit (Lead i) ;;;
           tryCatch (await next) (fun _ => emit (Handled i)) ;;;
           emit (Trail i)).

(** [(context, next) => next()] *)
Definition passThrough : Handler :=
  fun _ next => r <- next ;; ret (Normal (Promise r)).

(** The [onTurn] method of the set (lines 67-69) as a function value, the
    way the closure [(context, next) => plugin.onTurn(context, next)] of an
    enclosing chain calls it: [next] returns a promise, and so does
    [onTurn].  [inner] is the behaviour of the functions in the list of
    the set. *)
Definition setOnTurn (inner : FnId -> Handler) : Handler :=
  fun context next =>
    r <- onTurn inner context (r' <- next ;; ret (Normal (Promise r'))) ;;
    ret (Normal (Promise r)).

(** The handlers [use] has pushed when it returns or throws: those of the
    arguments before the first one it does not accept. *)
Fixpoint acceptedPrefix (plugins : list Value) : list MiddlewareHandler :=
  match plugins with
  | [] => []
  | p :: plugins' =>
      match normalized p with
      | Some h => h :: acceptedPrefix plugins'
      | None => []
      end
  end.

(** The first argument [use] does not accept, if any. *)
Fixpoint firstRejected (plugins : list Value) : option Value :=
  match plugins with
  | [] => None
  | p :: plugins' =>
      match normalized p with
      | Some _ => firstRejected plugins'
      | None => Some p
      end
  end.

(** The error [use] throws at an argument it does not accept. *)
Definition rejection (plugin : Value) : Exn :=
  match plugin with
  | VNull => TypeError "Cannot read property 'onTurn' of null"
  | _ => invalidPlugin
  end.

(** A function table for examples: function [0] is the [onTurn] method of
    a set of [leadTrail] interceptors, function [5] only calls [next],
    function [7] catches what [next] rejects with, the other functions are
    [leadTrail] interceptors. *)
Definition nestingTable (i : FnId) : Handler :=
  match i with
  | 0 => setOnTurn leadTrail
  | 5 => passThrough
  | 7 => leadCatch 7
  | _ => leadTrail i
  end.

(** ** Channel capabilities (channel.ts) *)

Module Channel.

(** The [channels] table (lines 10-25). *)
Definition facebook := "facebook".
Definition skype := "skype".
Definition msteams := "msteams".
Definition telegram := "telegram".
Definition kik := "kik".
Definition email := "email".
Definition slack := "slack".
Definition groupme := "groupme".
Definition sms := "sms".
Definition emulator := "emulator".
Definition directline := "directline".
Definition webchat := "webchat".
Definition console := "console".
Definition cortana := "cortana".

(** The default value [buttonCnt = 100] of an omitted argument. *)
Definition orDefault (buttonCnt : option Z) : Z :=
  match buttonCnt with
  | Some n => n
  | None => 100%Z
  end.

(** [supportsSuggestedActions(channelId, buttonCnt = 100)] (lines 27-41).
    Button counts are integers. *)
Definition supportsSuggestedActions (channelId : string) (buttonCnt : option Z) : bool :=
  let buttonCnt := orDefault buttonCnt in
  if (channelId =? facebook) || (channelId =? skype) then (buttonCnt <=? 10)%Z
  else if (channelId =? kik) then (buttonCnt <=? 20)%Z
  else if (channelId =? slack) || (channelId =? telegram) || (channelId =? emulator)
       then (buttonCnt <=? 100)%Z
  else false.

(** [supportsCardActions(channelId, buttonCnt = 100)] (lines 43-58). *)
Definition supportsCardActions (channelId : string) (buttonCnt : option Z) : bool :=
  let buttonCnt := orDefault buttonCnt in
  if (channelId =? facebook) || (channelId =? skype) || (channelId =? msteams)
  then (buttonCnt <=? 3)%Z
  else if (channelId =? slack) || (channelId =? emulator) || (channelId =? directline)
          || (channelId =? webchat) || (channelId =? cortana)
       then (buttonCnt <=? 100)%Z
  else false.

(** [hasMessageFeed(channelId)] (lines 60-67). *)
Definition hasMessageFeed (channelId : string) : bool :=
  if (channelId =? cortana) then false else true.

(** [maxActionTitleLength(channelId)] (lines 69-71). *)
Definition maxActionTitleLength (channelId : string) : Z := 20%Z.

(** The channels named by the [case] labels of each switch. *)
Definition suggestedActionChannels : list string :=
  [facebook; skype; kik; slack; telegram; emulator].

Definition cardActionChannels : list string :=
  [facebook; skype; msteams; slack; emulator; directline; webchat; cortana].

(** [getChannelId(context)] (lines 73-75): [context.activity.channelId || ''],
    on the turn context object. *)
Definition getChannelId (context : TurnContextObj) : string :=
  match act_channelId (tc_activity context) with
  | Some channelId => if truthy (VString channelId) then channelId else EmptyString
  | None => EmptyString
  end.

End Channel.

(** ** Conversation references (declared in turnContext.d.ts) *)

(** Modelled from the spec: the body of the static
    [TurnContext.getConversationReference], which turnContext.d.ts only
    declares.  The reference is the projection of the
    addressing fields of section 3; on a received activity the user is the
    sender and the bot the recipient. *)
Definition getConversationReference (activity : Activity) : ConversationReference :=
  {| ref_conversation := act_conversation activity;
     ref_user := act_from activity;
     ref_bot := act_recipient activity;
     ref_channelId := act_channelId activity;
     ref_serviceUrl := act_serviceUrl activity |}.

(** Modelled from the spec: the body of the static
    [TurnContext.applyConversationReference], which turnContext.d.ts only
    declares.  Section 4.2: when [isIncoming] the user and
    the bot go into [from] and [recipient], otherwise into [recipient] and
    [from]; the other addressing fields are taken from the reference and
    the remaining fields of the activity are kept. *)
Definition applyConversationReference (activity : Activity)
    (reference : ConversationReference) (isIncoming : bool) : Activity :=
  {| act_type := act_type activity;
     act_id := act_id activity;
     act_text := act_text activity;
     act_channelId := ref_channelId reference;
     act_conversation := ref_conversation reference;
     act_from := if isIncoming then ref_user reference else ref_bot reference;
     act_recipient := if isIncoming then ref_bot reference else ref_user reference;
     act_replyToId := act_replyToId activity;
     act_serviceUrl := ref_serviceUrl reference |}.

(** The activity [{}]. *)
Definition emptyActivity : Activity :=
  mkActivity None None None None None None None None None.

(** The addressing subset of an activity. *)
Definition addressing (a : Activity)
  : option Account * option string * option string :=
  (act_conversation a, act_channelId a, act_serviceUrl a).





(** ** Turn context and adapter entry points (declared in turnContext.d.ts
       and botFrameworkAdapter.d.ts) *)

(** A hook registered with [onSendActivities], [onUpdateActivity] or
    [onDeleteActivity] (turnContext.d.ts, lines 16-28), with one payload
    type for the three: [(context, payload, next) => Promiseable<results>]. *)
Definition HookHandler : Type :=
  TurnContext -> Payload -> M (Settled (list DeliveryResult)) ->
  M (Completion (Promiseable (list DeliveryResult))).

(** The raw request handed to [processActivity]: the activity of its body
    and its authorization header. *)
Record WebRequest := mkRequest {
  req_body : Activity;
  req_authorization : string
}.

(** [list[i] = x] for an index in range. *)
Fixpoint replaceNth {A} (i : nat) (x : A) (l : list A) : list A :=
  match l, i with
  | [], _ => []
  | _ :: l', 0 => x :: l'
  | y :: l', S i' => y :: replaceNth i' x l'
  end.

Section Turn.

Variable code : FnId -> Handler.

(** The behaviour of every hook function. *)
Variable hook : FnId -> HookHandler.

(** The external collaborators of section 6: the transport, and the
    identity verification, which throws on failure. *)
Variable transport : Payload -> M (Completion (Promiseable (list DeliveryResult))).
Variable verify : WebRequest -> M (Completion unit).

(** Modelled from the spec: the "live" flag of the design notes, false once
    the context was invalidated. *)
Definition isLive (context : TurnContext) (s : State) : bool :=
  negb (existsb (Nat.eqb context) (revoked s)).

(** Modelled from the spec: the check made at the start of every turn
    context operation ("explicit live flag checked at the start of every
    Turn Context operation"); turnContext.d.ts declares the class
    [TurnContext] without its method bodies. *)
Definition whenLive {A} (context : TurnContext)
    (k : TurnContextObj -> M (Completion A)) : M (Completion A) :=
  fun s =>
    if isLive context s then
      match nth_error (contexts s) context with
      | Some o => k o s
      | None => (Throw (TypeError "not a turn context"), s)
      end
    else (Throw StaleContextError, s).

(** Modelled from the spec: writing back the attributes of a turn context
    (section 3). *)
Definition store (context : TurnContext) (o : TurnContextObj) : M (Completion unit) :=
  fun s => (Normal tt, set_contexts (replaceNth context o (contexts s)) s).

(** Modelled from the spec: the hook chain of section 4.1, "a second,
    independent instance of this same chain-execution algorithm", over the
    hook list read when the payload is dispatched. *)
Fixpoint emitFrom (context : TurnContext) (payload : Payload)
    (rest : list FnId) : M (Settled (list DeliveryResult)) :=
  match rest with
  | [] => c <- transport payload ;; ret (settle c)
  | h :: rest' =>
      c <- hook h context payload (emitFrom context payload rest') ;; ret (settle c)
  end.

(** Modelled from the spec: reading the [activity] attribute (section 3). *)
Definition getActivity (context : TurnContext) : M (Completion Activity) :=
  whenLive context (fun o => ret (Normal (tc_activity o))).

(** Modelled from the spec: reading the [responded] flag (section 3). *)
Definition getResponded (context : TurnContext) : M (Completion bool) :=
  whenLive context (fun o => ret (Normal (tc_responded o))).

(** Modelled from the spec: reading the scratch map (section 3). *)
Definition getServices (context : TurnContext) : M (Completion (list (string * Value))) :=
  whenLive context (fun o => ret (Normal (tc_services o))).

(** Modelled from the spec: [sendActivities] of section 4.2; the call is
    taken together with the await of its result. *)
Definition sendActivities (context : TurnContext) (activities : list Activity)
  : M (Completion (list DeliveryResult)) :=
  whenLive context (fun o =>
    let reference := getConversationReference (tc_activity o) in
    let typed (a : Activity) :=
      match act_type a with
      | Some _ => a
      | None => mkActivity (Some "message") (act_id a) (act_text a) (act_channelId a)
                  (act_conversation a) (act_from a) (act_recipient a)
                  (act_replyToId a) (act_serviceUrl a)
      end in
    let output := map (fun a => applyConversationReference (typed a) reference false) activities in
    results <~ await (emitFrom context (SendPayload output) (tc_onSendActivities o)) ;;
    match results with
    | [] => ret (Normal results)
    | _ :: _ =>
        whenLive context (fun o' =>
          store context (mkContext (tc_activity o') true (tc_services o')
                           (tc_onSendActivities o') (tc_onUpdateActivity o')
                           (tc_onDeleteActivity o'))) ;;;
        ret (Normal results)
    end).

(** Modelled from the spec: [sendActivity] of section 4.2. *)
Definition sendActivity (context : TurnContext) (activity : Activity)
  : M (Completion (option DeliveryResult)) :=
  results <~ sendActivities context [activity] ;;
  ret (Normal (hd_error results)).

(** Modelled from the spec: [updateActivity] of section 4.2. *)
Definition updateActivity (context : TurnContext) (activity : Activity)
  : M (Completion unit) :=
  whenLive context (fun o =>
    match act_id activity with
    | None => throw (Error "updateActivity(): the activity has no id")
    | Some _ =>
        await (emitFrom context (UpdatePayload activity) (tc_onUpdateActivity o)) ;;;
        ret (Normal tt)
    end).

(** Modelled from the spec: [deleteActivity] of section 4.2. *)
Definition deleteActivity (context : TurnContext)
    (idOrReference : string + ConversationReference) : M (Completion unit) :=
  whenLive context (fun o =>
    let payload :=
      match idOrReference with
      | inl activityId =>
          DeletePayload (getConversationReference (tc_activity o)) (Some activityId)
      | inr reference => DeletePayload reference None
      end in
    await (emitFrom context payload (tc_onDeleteActivity o)) ;;;
    ret (Normal tt)).

(** Modelled from the spec: [onSendActivities] of section 4.2. *)
Definition onSendActivities (context : TurnContext) (handler : FnId) : M (Completion unit) :=
  whenLive context (fun o =>
    store context (mkContext (tc_activity o) (tc_responded o) (tc_services o)
                     (tc_onSendActivities o ++ [handler]) (tc_onUpdateActivity o)
                     (tc_onDeleteActivity o))).

(** Modelled from the spec: [onUpdateActivity] of section 4.2. *)
Definition onUpdateActivity (context : TurnContext) (handler : FnId) : M (Completion unit) :=
  whenLive context (fun o =>
    store context (mkContext (tc_activity o) (tc_responded o) (tc_services o)
                     (tc_onSendActivities o) (tc_onUpdateActivity o ++ [handler])
                     (tc_onDeleteActivity o))).

(** Modelled from the spec: [onDeleteActivity] of section 4.2. *)
Definition onDeleteActivity (context : TurnContext) (handler : FnId) : M (Completion unit) :=
  whenLive context (fun o =>
    store context (mkContext (tc_activity o) (tc_responded o) (tc_services o)
                     (tc_onSendActivities o) (tc_onUpdateActivity o)
                     (tc_onDeleteActivity o ++ [handler]))).

(** Modelled from the spec: the operations of a turn context listed in
    section 4.2, with the property reads of section 3. *)
Inductive Operation : Type :=
| OpSendActivity (activity : Activity)
| OpSendActivities (activities : list Activity)
| OpUpdateActivity (activity : Activity)
| OpDeleteActivity (idOrReference : string + ConversationReference)
| OpOnSendActivities (handler : FnId)
| OpOnUpdateActivity (handler : FnId)
| OpOnDeleteActivity (handler : FnId)
| OpGetActivity
| OpGetResponded
| OpGetServices.

(** Whether an operation fails, and with which error. *)
Definition failure {A} (c : Completion A) : option Exn :=
  match c with
  | Normal _ => None
  | Throw e => Some e
  end.

(** Modelled from the spec: carrying out an operation of section 4.2 on a
    turn context, with the error it fails with, if any. *)
Definition perform (context : TurnContext) (op : Operation) : M (option Exn) :=
  match op with
  | OpSendActivity a => c <- sendActivity context a ;; ret (failure c)
  | OpSendActivities l => c <- sendActivities context l ;; ret (failure c)
  | OpUpdateActivity a => c <- updateActivity context a ;; ret (failure c)
  | OpDeleteActivity r => c <- deleteActivity context r ;; ret (failure c)
  | OpOnSendActivities h => c <- onSendActivities context h ;; ret (failure c)
  | OpOnUpdateActivity h => c <- onUpdateActivity context h ;; ret (failure c)
  | OpOnDeleteActivity h => c <- onDeleteActivity context h ;; ret (failure c)
  | OpGetActivity => c <- getActivity context ;; ret (failure c)
  | OpGetResponded => c <- getResponded context ;; ret (failure c)
  | OpGetServices => c <- getServices context ;; ret (failure c)
  end.

(** Modelled from the spec: the construction of a turn context (transition
    2 of section 4.3); the adapter's [createContext] is only declared. *)
Definition createContext (request : Activity) : M TurnContext :=
  fun s =>
    (List.length (contexts s),
     add_phase ContextBuilt
       (set_contexts (contexts s ++ [mkContext request false [] [] [] []]) s)).

(** Modelled from the spec: invalidation of a turn context (transition 4 of
    section 4.3). *)
Definition invalidate (context : TurnContext) : M unit :=
  fun s => (tt, add_phase Invalidated (add_revoked context s)).

(** Modelled from the spec: a transition of the state machine of section
    4.3. *)
Definition enter (p : Phase) : M unit := fun s => (tt, add_phase p s).

(** Modelled from the spec: the terminal handler the adapter gives to the
    chain, the bot logic on the turn context (transition 3 of section
    4.3). *)
Definition logicTerminal (context : TurnContext)
    (logic : TurnContext -> Terminal) : Terminal :=
  _ <- enter LogicRunning ;;
  c <- logic context ;;
  _ <- enter MiddlewareUnwinding ;;
  ret c.

(** Modelled from the spec: [processActivity] as the state machine of
    section 4.3; [botFrameworkAdapter.d.ts] only declares it.  The chain is
    run with [run] of middlewareSet.ts. *)
Definition processActivity (req : WebRequest) (logic : TurnContext -> Terminal)
  : M (Settled unit) :=
  _ <- enter Received ;;
  v <- verify req ;;
  match v with
  | Throw _ => ret (Rejected AuthenticationError)
  | Normal _ =>
      _ <- enter Authenticated ;;
      context <- createContext (req_body req) ;;
      _ <- enter MiddlewareRunning ;;
      r <- run code context (logicTerminal context logic) ;;
      _ <- invalidate context ;;
      ret r
  end.

(** Modelled from the spec: the minimal activity synthesized from a
    conversation reference, with no [type]; it stands for a received
    activity. *)
Definition synthesize (reference : ConversationReference) : Activity :=
  applyConversationReference emptyActivity reference true.

(** Modelled from the spec: [continueConversation] (section 4.3, last
    paragraph); only declared in [botFrameworkAdapter.d.ts]. *)
Definition continueConversation (reference : ConversationReference)
    (logic : TurnContext -> Terminal) : M (Settled unit) :=
  context <- createContext (synthesize reference) ;;
  _ <- enter MiddlewareRunning ;;
  r <- run code context (logicTerminal context logic) ;;
  _ <- invalidate context ;;
  ret r.

(** Modelled from the spec: [createConversation] (section 4.3, last
    paragraph); only declared in [botFrameworkAdapter.d.ts]. *)
Definition createConversation (reference : ConversationReference)
    (logic : TurnContext -> Terminal) : M (Settled unit) :=
  context <- createContext (synthesize reference) ;;
  _ <- enter MiddlewareRunning ;;
  r <- run code context (logicTerminal context logic) ;;
  _ <- invalidate context ;;
  ret r.

End Turn.

(** Collaborators for examples: a verification that accepts every request,
    a transport that delivers nothing, a hook that passes on. *)
Definition acceptAll : WebRequest -> M (Completion unit) :=
  fun _ => ret (Normal tt).

Definition nullTransport : Payload -> M (Completion (Promiseable (list DeliveryResult))) :=
  fun _ => ret (Normal (Plain [])).

Definition passHook : FnId -> HookHandler :=
  fun _ _ _ next => r <- next ;; ret (Normal (Promise r)).

Definition helloRequest : WebRequest :=
  mkRequest
    (mkActivity (Some "message") (Some "a1") (Some "hello") (Some "emulator")
       (Some (mkAccount "c1")) (Some (mkAccount "user")) (Some (mkAccount "bot"))
       None (Some "https://x"))
    "Bearer token".

(** * Properties *)

(** ** The store and the monad *)

Lemma add_log_nil s : add_log [] s = s.
Proof. destruct s; unfold add_log; simpl; now rewrite app_nil_r. Qed.

Lemma add_log_app l1 l2 s : add_log l2 (add_log l1 s) = add_log (l1 ++ l2) s.
Proof. unfold add_log; simpl; now rewrite app_assoc. Qed.

Ltac unfold_monad :=
  cbv beta iota zeta delta [andThen bind ret throw emit await async tryFinally] in *.

(** ** The chain runner *)

Section RunnerFacts.

Variable code : FnId -> Handler.

Lemma skipn_nth_error {A} (l : list A) : forall i x,
  nth_error l i = Some x -> skipn i l = x :: skipn (S i) l.
Proof.
  induction l as [|y l IH]; intros [|i] x H; simpl in *; try discriminate.
  - now inversion H.
  - now apply IH.
Qed.

(** The branch [i < handlers.length] of [runNext]: [handlers[i]] is called
    with a [next] that is [runNext(i + 1)]. *)
Lemma runNext_step handlers context next i h :
  nth_error handlers i = Some h ->
  runNext code handlers context next i =
  (c <- invoke code h context (runNext code handlers context next (S i)) ;; ret (settle c)).
Proof.
  intros H. unfold runNext. now rewrite (skipn_nth_error _ _ _ H).
Qed.

(** The [else] branch of [runNext]: past the last handler the terminal
    handler is called. *)
Lemma runNext_end handlers context next i :
  List.length handlers <= i ->
  runNext code handlers context next i = (c <- next ;; ret (settle c)).
Proof.
  intros H. unfold runNext. now rewrite skipn_all2.
Qed.

Lemma usePlugin_accepts plugin h s :
  normalized plugin = Some h ->
  usePlugin plugin s = (Normal tt, set_middleware (middleware s ++ [h]) s).
Proof.
  destruct plugin; simpl; try discriminate.
  - intros H; now inversion H.
  - destruct (truthy plugin); try discriminate. intros H; now inversion H.
Qed.

Lemma forEach_usePlugin_accepts plugins : forall hs s,
  Forall2 (fun p h => normalized p = Some h) plugins hs ->
  forEach usePlugin plugins s = (Normal tt, set_middleware (middleware s ++ hs) s).
Proof.
  induction plugins as [|p plugins IH]; intros hs s H; inversion H; subst; simpl.
  - rewrite app_nil_r. now destruct s.
  - unfold_monad. rewrite (usePlugin_accepts _ _ _ H2).
    rewrite (IH _ _ H4). simpl. now rewrite <- app_assoc.
Qed.

Lemma use_accepts plugins hs s :
  Forall2 (fun p h => normalized p = Some h) plugins hs ->
  use plugins s = (Normal tt, set_middleware (middleware s ++ hs) s).
Proof.
  intros H. unfold use. unfold_monad. now rewrite (forEach_usePlugin_accepts _ _ _ H).
Qed.

Lemma normalized_pluginOf entries :
  Forall2 (fun p h => normalized p = Some h) (map pluginOf entries) (map handlerOf entries).
Proof.
  induction entries as [|[[|] f] entries IH]; simpl; constructor; auto.
Qed.

Lemma invoke_handlerOf entry context next :
  invoke code (handlerOf entry) context next = code (snd entry) context next.
Proof. destruct entry as [[|] f]; reflexivity. Qed.

Lemma use_pluginOf entries s :
  use (map pluginOf entries) s =
  (Normal tt, set_middleware (middleware s ++ map handlerOf entries) s).
Proof. apply use_accepts, normalized_pluginOf. Qed.

(** What one [leadTrail] interceptor does around the rest of the chain. *)
Lemma leadTrail_around i context (rest : M (Settled unit)) s :
  leadTrail i context rest s =
  let (r, s1) := rest (add_log [Lead i] s) in
  match r with
  | Fulfilled _ => (Normal (Promise (Fulfilled tt)), add_log [Trail i] s1)
  | Rejected e => (Normal (Promise (Rejected e)), s1)
  end.
Proof.
  unfold leadTrail. unfold_monad.
  destruct (rest (add_log [Lead i] s)) as [[[]|e] s1]; reflexivity.
Qed.

(** A chain of [leadTrail] interceptors around any continuation. *)
Lemma runFrom_leadTrail context next tail : forall entries s,
  (forall e, In e entries -> code (snd e) = leadTrail (snd e)) ->
  runFrom code context next (map handlerOf entries ++ tail) s =
  let (r, s1) := runFrom code context next tail (add_log (map Lead (map snd entries)) s) in
  match r with
  | Fulfilled _ => (Fulfilled tt, add_log (map Trail (rev (map snd entries))) s1)
  | Rejected e => (Rejected e, s1)
  end.
Proof.
  induction entries as [|e entries IH]; intros s Hc; simpl.
  - rewrite add_log_nil.
    destruct (runFrom code context next tail s) as [[[]|e] s1];
      now rewrite ?add_log_nil.
  - unfold bind at 1. rewrite invoke_handlerOf, (Hc e (or_introl eq_refl)).
    rewrite leadTrail_around, IH by (intros; apply Hc; now right).
    rewrite add_log_app. simpl.
    destruct (runFrom code context next tail _) as [[[]|x] s1]; simpl; auto.
    rewrite add_log_app, map_app. reflexivity.
Qed.

(** [run] on a set whose list is a chain of [leadTrail] interceptors
    followed by [tail]. *)
Lemma run_leadTrail context next entries tail s :
  (forall e, In e entries -> code (snd e) = leadTrail (snd e)) ->
  middleware s = map handlerOf entries ++ tail ->
  run code context next s =
  let (r, s1) := runFrom code context next tail (add_log (map Lead (map snd entries)) s) in
  match r with
  | Fulfilled _ => (Fulfilled tt, add_log (map Trail (rev (map snd entries))) s1)
  | Rejected e => (Rejected e, s1)
  end.
Proof.
  intros Hc Hm. unfold run, runNext. rewrite Hm. simpl skipn.
  now apply runFrom_leadTrail.
Qed.

(** C1.  Interceptors registered with [use], as functions or as objects
    with an [onTurn] member, each of the shape "leading edge; await next();
    trailing edge", and any terminal handler: [use] stores them in
    registration order; in [run], handler [i] is called with a [next] that
    is [runNext (i + 1)], and past the last handler [runNext] calls the
    terminal handler; the leading edges are logged in registration order
    before the terminal handler runs and, when it completes, the trailing
    edges are logged in exactly the reverse order. *)
Theorem run_registration_order (entries : list (bool * FnId))
    (context : TurnContext) (next : Terminal) (s : State) :
  middleware s = [] ->
  let ids := map snd entries in
  let s0 := snd (use (map pluginOf entries) s) in
  let handlers := middleware s0 in
  fst (use (map pluginOf entries) s) = Normal tt /\
  handlers = map handlerOf entries /\
  (forall i h, nth_error handlers i = Some h ->
     runNext code handlers context next i =
     (c <- invoke code h context (runNext code handlers context next (S i)) ;;
      ret (settle c))) /\
  runNext code handlers context next (List.length handlers) =
    (c <- next ;; ret (settle c)) /\
  ((forall e, In e entries -> code (snd e) = leadTrail (snd e)) ->
   run code context next s0 =
     (let (c, s1) := next (add_log (map Lead ids) s0) in
      match settle c with
      | Fulfilled _ => (Fulfilled tt, add_log (map Trail (rev ids)) s1)
      | Rejected e => (Rejected e, s1)
      end)).
Proof.
  intros Hm ids s0 handlers. subst ids s0 handlers.
  rewrite use_pluginOf, Hm. simpl.
  split; [reflexivity |]. split; [reflexivity |]. split; [| split].
  - intros i h H. now apply runNext_step.
  - now apply runNext_end.
  - intros Hc. rewrite (run_leadTrail context next entries []); auto.
    + simpl. unfold bind, ret.
      destruct (next _) as [c s1]. destruct (settle c) as [[]|e]; reflexivity.
    + simpl. now rewrite app_nil_r.
Qed.

(** What one instrumented interceptor does around the rest of the chain. *)
Lemma instrumented_around guards i context (rest : M (Settled unit)) s :
  instrumented guards i context rest s =
  let (r, s1) := rest (add_log [Lead i] s) in
  match r with
  | Fulfilled _ =>
      (Normal (Promise (Fulfilled tt)),
       add_log ((if guards i then [Cleanup i] else []) ++ [Trail i]) s1)
  | Rejected e =>
      (Normal (Promise (Rejected e)),
       add_log (if guards i then [Cleanup i] else []) s1)
  end.
Proof.
  unfold instrumented. destruct (guards i).
  - unfold leadFinally. unfold_monad.
    destruct (rest (add_log [Lead i] s)) as [[[]|e] s1]; simpl;
      now rewrite ?add_log_app.
  - rewrite leadTrail_around.
    destruct (rest (add_log [Lead i] s)) as [[[]|e] s1]; simpl;
      now rewrite ?add_log_nil.
Qed.

(** A rejection coming from inside a chain of instrumented interceptors
    runs their [finally] blocks, innermost first, and nothing else. *)
Lemma runFrom_rejection guards context next tail e : forall entries s s1,
  (forall x, In x entries -> code (snd x) = instrumented guards (snd x)) ->
  runFrom code context next tail (add_log (map Lead (map snd entries)) s) = (Rejected e, s1) ->
  runFrom code context next (map handlerOf entries ++ tail) s =
  (Rejected e, add_log (map Cleanup (filter guards (rev (map snd entries)))) s1).
Proof.
  induction entries as [|x entries IH]; intros s s1 Hc H; simpl in *.
  - rewrite add_log_nil in H. now rewrite add_log_nil.
  - unfold bind at 1. rewrite invoke_handlerOf, (Hc x (or_introl eq_refl)).
    rewrite instrumented_around.
    rewrite (IH (add_log [Lead (snd x)] s) s1);
      [| intros; apply Hc; now right | now rewrite add_log_app].
    simpl. rewrite add_log_app, filter_app, map_app. simpl.
    destruct (guards (snd x)); reflexivity.
Qed.

(** C2 (amended).  The runner keeps no record of [next] having been
    called: an interceptor that awaits [next()] twice runs the rest of the
    chain, [runNext (i + 1)], once per call, the second time from the state
    the first run left; [run] adds no error of its own, and the promise
    settles the way these runs do. *)
Theorem next_twice_reruns_downstream (handlers : list MiddlewareHandler)
    (context : TurnContext) (next : Terminal) (i : nat) (entry : bool * FnId)
    (s : State) :
  nth_error handlers i = Some (handlerOf entry) ->
  code (snd entry) = nextTwice ->
  runNext code handlers context next i s =
  (let (r1, s1) := runNext code handlers context next (S i) s in
   match r1 with
   | Fulfilled _ => runNext code handlers context next (S i) s1
   | Rejected e => (Rejected e, s1)
   end).
Proof.
  intros Hn Hc. rewrite (runNext_step _ _ _ _ _ Hn).
  unfold bind at 1. rewrite invoke_handlerOf, Hc. unfold nextTwice. unfold_monad.
  destruct (runNext code handlers context next (S i) s) as [[[]|e] s1]; simpl; auto.
  destruct (runNext code handlers context next (S i) s1) as [[[]|e] s2]; reflexivity.
Qed.

(** C3.  Behind a chain of entered interceptors, an interceptor that
    returns without using its [next]: the result of [run] is the state its
    body left, followed by the trailing edges of the entered interceptors
    in reverse order.  Neither the handlers registered after it nor the
    terminal handler contribute: they are not called. *)
Theorem short_circuit_skips_the_rest (entries : list (bool * FnId))
    (entry : bool * FnId) (body : TurnContext -> Terminal)
    (later : list MiddlewareHandler) (context : TurnContext) (next : Terminal)
    (s s1 : State) (c : Completion (Promiseable unit)) :
  (forall e, In e entries -> code (snd e) = leadTrail (snd e)) ->
  code (snd entry) = ignoresNext body ->
  middleware s = map handlerOf entries ++ handlerOf entry :: later ->
  body context (add_log (map Lead (map snd entries)) s) = (c, s1) ->
  settle c = Fulfilled tt ->
  run code context next s =
  (Fulfilled tt, add_log (map Trail (rev (map snd entries))) s1).
Proof.
  intros Hc Hb Hm Hrun Hret.
  rewrite (run_leadTrail context next entries (handlerOf entry :: later) s Hc Hm).
  simpl. unfold bind at 1. rewrite invoke_handlerOf, Hb. unfold ignoresNext.
  rewrite Hrun. unfold ret. now rewrite Hret.
Qed.

(** C4 (amended).  Behind a chain of entered instrumented interceptors:
    when the rest of the chain (an interceptor with what follows it, or the
    terminal handler) rejects with [e], [run] rejects with the same [e], no
    trailing edge of an entered interceptor is logged, and the [finally]
    blocks of the entered interceptors run in reverse order.  In
    particular for a terminal handler that throws or rejects, and for an
    interceptor that does so without using its [next]: the failing code ran
    once, and the handlers behind the failing interceptor and the terminal
    handler are not called. *)
Theorem rejection_unwinds_entered (guards : FnId -> bool)
    (entries : list (bool * FnId)) (context : TurnContext) (s : State) (e : Exn) :
  (forall x, In x entries -> code (snd x) = instrumented guards (snd x)) ->
  let ids := map snd entries in
  let entered := add_log (map Lead ids) s in
  let unwound := add_log (map Cleanup (filter guards (rev ids))) in
  (forall next tail s1,
     middleware s = map handlerOf entries ++ tail ->
     runNext code (middleware s) context next (List.length entries) entered =
       (Rejected e, s1) ->
     run code context next s = (Rejected e, unwound s1)) /\
  (forall next c s1,
     middleware s = map handlerOf entries ->
     next entered = (c, s1) ->
     settle c = Rejected e ->
     run code context next s = (Rejected e, unwound s1)) /\
  (forall next entry body later c s1,
     middleware s = map handlerOf entries ++ handlerOf entry :: later ->
     code (snd entry) = ignoresNext body ->
     body context entered = (c, s1) ->
     settle c = Rejected e ->
     run code context next s = (Rejected e, unwound s1)).
Proof.
  intros Hc ids entered unwound. subst ids entered unwound.
  split; [| split].
  - intros next tail s1 Hm. unfold run, runNext. rewrite Hm. simpl skipn.
    rewrite <- (length_map handlerOf entries), skipn_app, skipn_all, Nat.sub_diag.
    simpl. now apply runFrom_rejection.
  - intros next c s1 Hm Hn Hs. unfold run, runNext. rewrite Hm. simpl skipn.
    rewrite <- (app_nil_r (map handlerOf entries)).
    apply runFrom_rejection; auto.
    simpl. unfold bind, ret. now rewrite Hn, Hs.
  - intros next entry body later c s1 Hm Hb Hn Hs. unfold run, runNext.
    rewrite Hm. simpl skipn. apply runFrom_rejection; auto.
    simpl. unfold bind at 1. rewrite invoke_handlerOf, Hb. unfold ignoresNext.
    rewrite Hn. unfold ret. now rewrite Hs.
Qed.

(** C9.  [run] works on the list as it is when [run] is called.  An
    interceptor that registers a further plugin and then awaits [next()]:
    the plugin is appended to the list of the set, and the run goes on with
    the handlers of the snapshot and the terminal handler, without calling
    the new one.  With an empty list [run] calls the terminal handler
    once. *)
Theorem run_uses_snapshot (before after : list (bool * FnId)) (g : FnId)
    (plugin : Value) (added : MiddlewareHandler)
    (context : TurnContext) (next : Terminal) (s : State) :
  (forall e, In e (before ++ after) -> code (snd e) = leadTrail (snd e)) ->
  code g = registers plugin ->
  normalized plugin = Some added ->
  (middleware s = map handlerOf before ++ Fn g :: map handlerOf after ->
   run code context next s =
   (let s' := add_log (map Lead (map snd before)) s in
    let s'' := set_middleware (middleware s ++ [added]) s' in
    let (c, s1) := next (add_log (map Lead (map snd after)) s'') in
    match settle c with
    | Fulfilled _ =>
        (Fulfilled tt, add_log (map Trail (rev (map snd (before ++ after)))) s1)
    | Rejected e => (Rejected e, s1)
    end)) /\
  (middleware s = [] ->
   run code context next s = (let (c, s1) := next s in (settle c, s1))).
Proof.
  intros Hc Hg Hp. split.
  - intros Hm.
    rewrite (run_leadTrail context next before (Fn g :: map handlerOf after) s);
      [| intros; apply Hc, in_or_app; now left | assumption].
    simpl. unfold bind at 1. rewrite Hg. unfold registers. unfold_monad.
    rewrite (use_accepts [plugin] [added]) by (constructor; auto).
    simpl. rewrite <- (app_nil_r (map handlerOf after)).
    rewrite runFrom_leadTrail by (intros; apply Hc, in_or_app; now right).
    simpl. unfold bind, ret.
    destruct (next _) as [c s1]. destruct (settle c) as [[]|e]; simpl; auto.
    rewrite add_log_app, map_app, rev_app_distr, map_app. reflexivity.
  - intros Hm. unfold run, runNext. rewrite Hm. simpl. unfold bind, ret.
    now destruct (next s).
Qed.

End RunnerFacts.

Lemma run_registration_order_witness :
  let entries := [(false, 1); (true, 2); (false, 3)] in
  let s0 := snd (use (map pluginOf entries) emptyState) in
  (middleware emptyState = [] /\
   (forall e, In e entries -> leadTrail (snd e) = leadTrail (snd e))) /\
  run leadTrail 0 logicOk s0 =
  (Fulfilled tt,
   add_log [Lead 1; Lead 2; Lead 3; Logic; Trail 3; Trail 2; Trail 1] s0).
Proof.
  cbv zeta. split; [split; [reflexivity | reflexivity] |].
  destruct (run_registration_order leadTrail [(false, 1); (true, 2); (false, 3)]
              0 logicOk emptyState eq_refl)
    as (_ & _ & _ & _ & H).
  rewrite (H (fun e _ => eq_refl)). reflexivity.
Defined.

Lemma next_twice_reruns_downstream_witness :
  (nth_error [Fn 0; Fn 1] 0 = Some (handlerOf (false, 0)) /\
   twiceTable (snd (false, 0)) = nextTwice) /\
  runNext twiceTable [Fn 0; Fn 1] 0 logicOk 0 emptyState =
  (Fulfilled tt, add_log [Lead 1; Logic; Trail 1; Lead 1; Logic; Trail 1] emptyState).
Proof.
  split; [split; reflexivity |].
  rewrite (next_twice_reruns_downstream twiceTable [Fn 0; Fn 1] 0 logicOk 0
             (false, 0) emptyState eq_refl eq_refl).
  reflexivity.
Defined.

(** C2, as stated, fails: an interceptor that awaits [next()] twice, before
    a logging interceptor and a logging terminal handler.  The promise of
    [run] is fulfilled, and the interceptor behind it and the terminal
    handler ran twice. *)
Lemma next_twice_is_not_flagged :
  let s0 := snd (use [VFunction 0; VFunction 1] emptyState) in
  fst (run twiceTable 0 logicOk s0) = Fulfilled tt /\
  log (snd (run twiceTable 0 logicOk s0)) =
    [Lead 1; Logic; Trail 1; Lead 1; Logic; Trail 1].
Proof. split; reflexivity. Qed.

Lemma short_circuit_skips_the_rest_witness :
  let s := set_middleware [Fn 1; OnTurnOf (VObject (VFunction 2)); Fn 0; Fn 3] emptyState in
  ((forall e, In e [(false, 1); (true, 2)] -> shortTable (snd e) = leadTrail (snd e)) /\
   shortTable (snd (false, 0)) = ignoresNext (fun _ => async (emit (Handled 0))) /\
   middleware s = map handlerOf [(false, 1); (true, 2)] ++ handlerOf (false, 0) :: [Fn 3] /\
   async (emit (Handled 0)) (add_log (map Lead (map snd [(false, 1); (true, 2)])) s) =
     (Normal (Promise (Fulfilled tt)), add_log [Lead 1; Lead 2; Handled 0] s) /\
   settle (Normal (Promise (Fulfilled tt))) = Fulfilled tt) /\
  run shortTable 0 logicOk s =
  (Fulfilled tt, add_log [Lead 1; Lead 2; Handled 0; Trail 2; Trail 1] s).
Proof.
  cbv zeta.
  assert (H : forall e, In e [(false, 1); (true, 2)] ->
                        shortTable (snd e) = leadTrail (snd e)).
  { intros e [<-|[<-|[]]]; reflexivity. }
  split; [repeat split; try reflexivity; exact H |].
  rewrite (short_circuit_skips_the_rest shortTable [(false, 1); (true, 2)] (false, 0)
             (fun _ => async (emit (Handled 0))) [Fn 3] 0 logicOk
             (set_middleware [Fn 1; OnTurnOf (VObject (VFunction 2)); Fn 0; Fn 3] emptyState)
             _ _ H eq_refl eq_refl eq_refl eq_refl).
  reflexivity.
Defined.

(** C4, as stated, fails: one interceptor of the shape of the usage
    examples and a terminal handler that throws.  The error reaches the
    caller of [run], and the trailing edge of the entered interceptor is
    not run. *)
Lemma trailing_edge_skipped_on_rejection :
  let s0 := snd (use [VFunction 1] emptyState) in
  run leadTrail 0 (logicFails (Error "boom")) s0 =
    (Rejected (Error "boom"), add_log [Lead 1; Logic] s0) /\
  ~ In (Trail 1) (log (snd (run leadTrail 0 (logicFails (Error "boom")) s0))).
Proof.
  split; [reflexivity |].
  simpl. intros [H|[H|[]]]; discriminate.
Qed.

Lemma rejection_unwinds_entered_witness :
  let boom := Error "boom" in
  let entries := [(false, 1); (true, 2); (false, 4)] in
  let s := set_middleware (map handlerOf entries) emptyState in
  let s' := set_middleware (map handlerOf entries ++ [Fn 0; Fn 6]) emptyState in
  let s'' := set_middleware (map handlerOf entries ++ [Fn 8; Fn 3]) emptyState in
  (forall x, In x entries -> failingTable boom (snd x) = instrumented Nat.even (snd x)) /\
  run (failingTable boom) 0 logicOk s'' =
    (Rejected boom,
     add_log [Lead 1; Lead 2; Lead 4; Lead 3; Logic; Trail 3; Cleanup 4; Cleanup 2] s'') /\
  run (failingTable boom) 0 (logicFails boom) s =
    (Rejected boom, add_log [Lead 1; Lead 2; Lead 4; Logic; Cleanup 4; Cleanup 2] s) /\
  run (failingTable boom) 0 logicOk s' =
    (Rejected boom, add_log [Lead 1; Lead 2; Lead 4; Cleanup 4; Cleanup 2] s').
Proof.
  cbv zeta.
  assert (H : forall x, In x [(false, 1); (true, 2); (false, 4)] ->
                        failingTable (Error "boom") (snd x) = instrumented Nat.even (snd x)).
  { intros x [<-|[<-|[<-|[]]]]; reflexivity. }
  split; [exact H |]. split; [| split].
  - exact (proj1 (rejection_unwinds_entered (failingTable (Error "boom")) Nat.even
                    [(false, 1); (true, 2); (false, 4)] 0
                    (set_middleware
                       [Fn 1; OnTurnOf (VObject (VFunction 2)); Fn 4; Fn 8; Fn 3] emptyState)
                    (Error "boom") H)
             logicOk [Fn 8; Fn 3] _ eq_refl eq_refl).
  - exact (proj1 (proj2 (rejection_unwinds_entered (failingTable (Error "boom")) Nat.even
                      [(false, 1); (true, 2); (false, 4)] 0
                      (set_middleware [Fn 1; OnTurnOf (VObject (VFunction 2)); Fn 4] emptyState)
                      (Error "boom") H))
               (logicFails (Error "boom")) _ _ eq_refl eq_refl eq_refl).
  - exact (proj2 (proj2 (rejection_unwinds_entered (failingTable (Error "boom")) Nat.even
                      [(false, 1); (true, 2); (false, 4)] 0
                      (set_middleware
                         [Fn 1; OnTurnOf (VObject (VFunction 2)); Fn 4; Fn 0; Fn 6] emptyState)
                      (Error "boom") H))
               logicOk (false, 0) (fun _ => throw (Error "boom")) [Fn 6] _ _
               eq_refl eq_refl eq_refl eq_refl).
Defined.

Lemma run_uses_snapshot_witness :
  let s := set_middleware [Fn 1; Fn 0; OnTurnOf (VObject (VFunction 2))] emptyState in
  ((forall e, In e ([(false, 1)] ++ [(true, 2)]) -> lateTable (snd e) = leadTrail (snd e)) /\
   lateTable 0 = registers (VFunction 9) /\
   normalized (VFunction 9) = Some (Fn 9) /\
   middleware s = map handlerOf [(false, 1)] ++ Fn 0 :: map handlerOf [(true, 2)] /\
   middleware emptyState = []) /\
  run lateTable 0 logicOk s =
    (Fulfilled tt,
     add_log [Lead 1; Lead 2; Logic; Trail 2; Trail 1]
       (set_middleware [Fn 1; Fn 0; OnTurnOf (VObject (VFunction 2)); Fn 9] emptyState)) /\
  run lateTable 0 logicOk emptyState = (Fulfilled tt, add_log [Logic] emptyState).
Proof.
  cbv zeta.
  assert (H : forall e, In e ([(false, 1)] ++ [(true, 2)]) ->
                        lateTable (snd e) = leadTrail (snd e)).
  { intros e [<-|[<-|[]]]; reflexivity. }
  split; [repeat split; try reflexivity; exact H |]. split.
  - rewrite (proj1 (run_uses_snapshot lateTable [(false, 1)] [(true, 2)] 0
                      (VFunction 9) (Fn 9) 0 logicOk
                      (set_middleware [Fn 1; Fn 0; OnTurnOf (VObject (VFunction 2))] emptyState)
                      H eq_refl eq_refl) eq_refl).
    reflexivity.
  - rewrite (proj2 (run_uses_snapshot lateTable [(false, 1)] [(true, 2)] 0
                      (VFunction 9) (Fn 9) 0 logicOk emptyState H eq_refl eq_refl) eq_refl).
    reflexivity.
Defined.

(** ** Registration *)

(** [use] with one argument other than [null]: the plugin is appended in
    its canonical shape, or the invalid-plugin error is thrown and the list
    is left as it was. *)
Lemma use_single_plugin (plugin : Value) (s : State) :
  plugin <> VNull ->
  match normalized plugin with
  | Some h => use [plugin] s = (Normal tt, set_middleware (middleware s ++ [h]) s)
  | None => use [plugin] s = (Throw invalidPlugin, s)
  end.
Proof.
  intros Hn. destruct plugin; simpl; try reflexivity; try congruence.
  unfold use, forEach. unfold_monad. simpl.
  destruct (truthy plugin); reflexivity.
Qed.

(** C5 at [null].  [typeof null] is ['object'], so the second test of [use]
    reads [null.onTurn]: the call throws the TypeError of that read, not
    the invalid-plugin error of the last branch. *)
Theorem use_null_throws_type_error (s : State) :
  use [VNull] s = (Throw (TypeError "Cannot read property 'onTurn' of null"), s) /\
  fst (use [VNull] s) <> Throw invalidPlugin /\
  normalized VNull = None.
Proof.
  repeat split. simpl. discriminate.
Qed.

(** ** Channel capabilities *)

Lemma leb_downward (k n m : Z) :
  (m <= n)%Z -> (n <=? k)%Z = true -> (m <=? k)%Z = true.
Proof. rewrite !Z.leb_le. lia. Qed.

Lemma eqb_outside (x : string) (l : list string) (y : string) :
  ~ In x l -> In y l -> (x =? y) = false.
Proof.
  intros Hx Hy. apply String.eqb_neq. intros ->. now apply Hx.
Qed.

(** C10.  Both capability tests are downward closed in the button count,
    and are false on every channel that is not a [case] label of their
    switch, whatever the count, also when it is omitted. *)
Theorem capabilities_monotone_and_closed (channelId : string) :
  (forall n m : Z, (m <= n)%Z ->
     Channel.supportsSuggestedActions channelId (Some n) = true ->
     Channel.supportsSuggestedActions channelId (Some m) = true) /\
  (forall n m : Z, (m <= n)%Z ->
     Channel.supportsCardActions channelId (Some n) = true ->
     Channel.supportsCardActions channelId (Some m) = true) /\
  (~ In channelId Channel.suggestedActionChannels ->
   forall buttonCnt, Channel.supportsSuggestedActions channelId buttonCnt = false) /\
  (~ In channelId Channel.cardActionChannels ->
   forall buttonCnt, Channel.supportsCardActions channelId buttonCnt = false).
Proof.
  split; [| split; [| split]].
  - intros n m Hle. unfold Channel.supportsSuggestedActions. simpl.
    repeat match goal with
           | |- context [if ?b then _ else _] => destruct b
           end; try discriminate; now apply leb_downward.
  - intros n m Hle. unfold Channel.supportsCardActions. simpl.
    repeat match goal with
           | |- context [if ?b then _ else _] => destruct b
           end; try discriminate; now apply leb_downward.
  - intros Hout buttonCnt. unfold Channel.supportsSuggestedActions.
    rewrite !(eqb_outside _ _ _ Hout) by (simpl; tauto). reflexivity.
  - intros Hout buttonCnt. unfold Channel.supportsCardActions.
    rewrite !(eqb_outside _ _ _ Hout) by (simpl; tauto). reflexivity.
Qed.

Lemma capabilities_monotone_and_closed_witness :
  ((3 <= 10)%Z /\
   Channel.supportsSuggestedActions "facebook" (Some 10%Z) = true /\
   Channel.supportsCardActions "slack" (Some 10%Z) = true /\
   ~ In "email" Channel.suggestedActionChannels /\
   ~ In "kik" Channel.cardActionChannels) /\
  Channel.supportsSuggestedActions "facebook" (Some 3%Z) = true /\
  Channel.supportsCardActions "slack" (Some 3%Z) = true /\
  Channel.supportsSuggestedActions "email" None = false /\
  Channel.supportsCardActions "kik" (Some 1%Z) = false.
Proof.
  assert (H1 : (3 <= 10)%Z) by lia.
  assert (H2 : ~ In "email" Channel.suggestedActionChannels).
  { simpl. intros [H|[H|[H|[H|[H|[H|[]]]]]]]; discriminate. }
  assert (H3 : ~ In "kik" Channel.cardActionChannels).
  { simpl. intros [H|[H|[H|[H|[H|[H|[H|[H|[]]]]]]]]]; discriminate. }
  split; [repeat split; assumption |].
  split; [| split; [| split]].
  - exact (proj1 (capabilities_monotone_and_closed "facebook") 10%Z 3%Z H1 eq_refl).
  - exact (proj1 (proj2 (capabilities_monotone_and_closed "slack")) 10%Z 3%Z H1 eq_refl).
  - exact (proj1 (proj2 (proj2 (capabilities_monotone_and_closed "email"))) H2 None).
  - exact (proj2 (proj2 (proj2 (capabilities_monotone_and_closed "kik"))) H3 (Some 1%Z)).
Defined.

(** ** Conversation references *)





(** ** Invalidation of the turn context *)

Section TurnFacts.

Variable code : FnId -> Handler.
Variable hook : FnId -> HookHandler.
Variable transport : Payload -> M (Completion (Promiseable (list DeliveryResult))).
Variable verify : WebRequest -> M (Completion unit).

Lemma whenLive_revoked {A} context (k : TurnContextObj -> M (Completion A)) s :
  isLive context s = false ->
  whenLive context k s = (Throw StaleContextError, s).
Proof. intros H. unfold whenLive. now rewrite H. Qed.

(** Every operation on an invalidated context fails with the stale-context
    error and leaves the store as it is. *)
Lemma perform_revoked context op s :
  isLive context s = false ->
  perform hook transport context op s = (Some StaleContextError, s).
Proof.
  intros H.
  destruct op; unfold perform, sendActivity, sendActivities, updateActivity,
    deleteActivity, onSendActivities, onUpdateActivity, onDeleteActivity,
    getActivity, getResponded, getServices;
    unfold andThen, bind; now rewrite (whenLive_revoked _ _ _ H).
Qed.

Lemma isLive_revoked context s :
  In context (revoked s) -> isLive context s = false.
Proof.
  intros H. unfold isLive.
  replace (existsb (Nat.eqb context) (revoked s)) with true; [reflexivity |].
  symmetry. apply existsb_exists. exists context. split; [assumption |].
  apply Nat.eqb_refl.
Qed.

(** C6.  After [processActivity] on an authenticated request, whether the
    promise of the turn is fulfilled or rejected: the chain ran on the
    context built for the turn, that context was invalidated after it, and
    from then on, in every store in which it is still marked invalidated,
    every operation on it (sending, updating, deleting, hook registration,
    property reads) fails with the stale-context error and does nothing
    else. *)
Theorem stale_context_after_turn (req : WebRequest)
    (logic : TurnContext -> Terminal) (s s1 s' : State) (r : Settled unit) :
  verify req (add_phase Received s) = (Normal tt, s1) ->
  processActivity code verify req logic s = (r, s') ->
  let context := List.length (contexts s1) in
  let built :=
    add_phase MiddlewareRunning
      (snd (createContext (req_body req) (add_phase Authenticated s1))) in
  (exists s2,
     run code context (logicTerminal context logic) built = (r, s2) /\
     s' = add_phase Invalidated (add_revoked context s2)) /\
  In context (revoked s') /\
  (forall later op,
     In context (revoked later) ->
     perform hook transport context op later = (Some StaleContextError, later)).
Proof.
  intros Hv Hp context built. subst context built.
  unfold processActivity, invalidate, enter, createContext in Hp.
  cbv beta iota zeta delta [bind ret] in Hp. rewrite Hv in Hp. simpl in *.
  destruct (run code _ _ _) as [r' s2] eqn:Hrun.
  inversion Hp; subst. split.
  - exists s2. split; reflexivity.
  - split; [now left |].
    intros later op Hr. now apply perform_revoked, isLive_revoked.
Qed.

(** C8.  [continueConversation] and [createConversation] are the same
    turn; the activity they synthesize has no type and takes its addressing
    fields from the reference; the context they build holds that activity
    and is the one given to the chain, and it is invalidated afterwards;
    and [processActivity], once the request is authenticated, is that same
    turn on the received activity, from the state authentication left. *)
Theorem proactive_turn_skips_authentication (reference : ConversationReference)
    (logic : TurnContext -> Terminal) (s : State) :
  continueConversation code reference logic s =
    createConversation code reference logic s /\
  (act_type (synthesize reference) = None /\
   addressing (synthesize reference) =
     (ref_conversation reference, ref_channelId reference, ref_serviceUrl reference) /\
   act_from (synthesize reference) = ref_user reference /\
   act_recipient (synthesize reference) = ref_bot reference) /\
  (let context := fst (createContext (synthesize reference) s) in
   let built := add_phase MiddlewareRunning (snd (createContext (synthesize reference) s)) in
   option_map tc_activity (nth_error (contexts built) context) = Some (synthesize reference) /\
   continueConversation code reference logic s =
     (let (r, s2) := run code context (logicTerminal context logic) built in
      (r, add_phase Invalidated (add_revoked context s2)))) /\
  (forall req s0,
     verify req (add_phase Received s0) = (Normal tt, s) ->
     req_body req = synthesize reference ->
     processActivity code verify req logic s0 =
       continueConversation code reference logic (add_phase Authenticated s)).
Proof.
  split; [reflexivity |]. split; [repeat split |]. split.
  - simpl. split.
    + rewrite nth_error_app2, Nat.sub_diag by lia. reflexivity.
    + unfold continueConversation, invalidate, enter, createContext.
      cbv beta iota zeta delta [bind ret]. simpl.
      destruct (run code _ _ _); reflexivity.
  - intros req s0 Hv Hb.
    unfold processActivity, continueConversation, invalidate, enter, createContext.
    cbv beta iota zeta delta [bind ret]. rewrite Hv, Hb. reflexivity.
Qed.

End TurnFacts.

Lemma stale_context_after_turn_witness :
  let s := set_middleware [Fn 1] emptyState in
  let logic := fun _ : TurnContext => logicFails (Error "boom") in
  let s' := snd (processActivity leadTrail acceptAll helloRequest logic s) in
  (acceptAll helloRequest (add_phase Received s) = (Normal tt, add_phase Received s) /\
   processActivity leadTrail acceptAll helloRequest logic s = (Rejected (Error "boom"), s')) /\
  forall op, perform passHook nullTransport 0 op s' = (Some StaleContextError, s').
Proof.
  cbv zeta. split; [split; reflexivity |].
  destruct (stale_context_after_turn leadTrail passHook nullTransport acceptAll
              helloRequest (fun _ => logicFails (Error "boom"))
              (set_middleware [Fn 1] emptyState) _ _ _ eq_refl eq_refl)
    as (_ & Hr & H).
  intros op. exact (H _ op Hr).
Defined.

Lemma proactive_turn_skips_authentication_witness :
  let reference := getConversationReference (req_body helloRequest) in
  let req := mkRequest (synthesize reference) "Bearer token" in
  let s0 := set_middleware [Fn 1] emptyState in
  (acceptAll req (add_phase Received s0) = (Normal tt, add_phase Received s0) /\
   req_body req = synthesize reference) /\
  processActivity leadTrail acceptAll req (fun _ => logicOk) s0 =
    continueConversation leadTrail reference (fun _ => logicOk)
      (add_phase Authenticated (add_phase Received s0)).
Proof.
  cbv zeta. split; [split; reflexivity |].
  exact (proj2 (proj2 (proj2 (proactive_turn_skips_authentication leadTrail acceptAll
                  (getConversationReference (req_body helloRequest)) (fun _ => logicOk)
                  (add_phase Received (set_middleware [Fn 1] emptyState)))))
           (mkRequest (synthesize (getConversationReference (req_body helloRequest)))
              "Bearer token")
           (set_middleware [Fn 1] emptyState) eq_refl eq_refl).
Defined.

(** * Further properties of the sources *)

(** ** [use] with several arguments *)

Lemma usePlugin_rejects plugin s :
  normalized plugin = None ->
  usePlugin plugin s = (Throw (rejection plugin), s).
Proof.
  destruct plugin; simpl; try reflexivity; try discriminate.
  destruct (truthy plugin); [discriminate | reflexivity].
Qed.

Lemma forEach_usePlugin_prefix plugins : forall s,
  forEach usePlugin plugins s =
  (match firstRejected plugins with
   | None => Normal tt
   | Some p => Throw (rejection p)
   end,
   set_middleware (middleware s ++ acceptedPrefix plugins) s).
Proof.
  induction plugins as [|p plugins IH]; intros s; simpl.
  - rewrite app_nil_r. now destruct s.
  - unfold andThen, bind. destruct (normalized p) as [h|] eqn:Hp.
    + rewrite (usePlugin_accepts _ _ _ Hp), IH. simpl. now rewrite <- app_assoc.
    + rewrite (usePlugin_rejects _ _ Hp). unfold ret. rewrite app_nil_r. now destruct s.
Qed.

Lemma forEach_app {A} (f : A -> M (Completion unit)) (a b : list A) : forall s,
  forEach f (a ++ b) s = (forEach f a ;;; forEach f b) s.
Proof.
  induction a as [|x a IH]; intros s; simpl.
  - reflexivity.
  - unfold andThen, bind. destruct (f x s) as [[[]|e] s1]; [| reflexivity].
    rewrite IH. reflexivity.
Qed.

(** X1.  [use] with any arguments: the arguments before the first one that
    is not a plugin are appended, in order and in canonical shape, behind
    the handlers already there; the arguments from that one on are not;
    the call throws the error of that argument, or returns when there is
    none.  Nothing else in the store changes. *)
Theorem use_registers_accepted_prefix (plugins : list Value) (s : State) :
  use plugins s =
  (match firstRejected plugins with
   | None => Normal tt
   | Some p => Throw (rejection p)
   end,
   set_middleware (middleware s ++ acceptedPrefix plugins) s).
Proof.
  unfold use, andThen, bind. rewrite forEach_usePlugin_prefix.
  destruct (firstRejected plugins); reflexivity.
Qed.

(** X2.  Registering in two calls is registering in one: [set.use(...a)]
    followed, when it returns, by [set.use(...b)] completes the same way
    and leaves the same list as the single call [set.use(...a, ...b)]; when
    an argument of the first call is rejected the second call is not made,
    as the arguments behind the rejected one are not looked at in the
    single call. *)
Theorem use_in_two_calls (a b : list Value) (s : State) :
  (use a ;;; use b) s = use (a ++ b) s.
Proof.
  unfold use. unfold andThen at 1 2 3 4. unfold bind. rewrite forEach_app.
  unfold andThen, bind.
  destruct (forEach usePlugin a s) as [[[]|e] s1]; simpl; [| reflexivity].
  destruct (forEach usePlugin b s1) as [[[]|e] s2]; reflexivity.
Qed.

(** ** More on the chain *)

Section ChainFacts.

Variable code : FnId -> Handler.

Lemma normalized_one entry : normalized (pluginOf entry) = Some (handlerOf entry).
Proof. destruct entry as [[|] f]; reflexivity. Qed.

Lemma skipn_behind_one {A B} (f : A -> B) (l : list A) (x : B) (tail : list B) :
  skipn (S (List.length l)) (map f l ++ x :: tail) = tail.
Proof. induction l; simpl; auto. Qed.

(** X3.  [use] tests an object only for a truthy [onTurn]: an object whose
    [onTurn] is not a function is registered without error, and the
    failure shows when the chain reaches it: the promise of [run] is
    rejected with the TypeError of the call, after the leading edges of the
    interceptors before it, and neither the handlers behind it nor the
    terminal handler are called. *)
Theorem non_callable_onTurn_fails_at_run (entries : list (bool * FnId))
    (member : Value) (later : list MiddlewareHandler)
    (context : TurnContext) (next : Terminal) (s : State) :
  truthy member = true ->
  (forall f, member <> VFunction f) ->
  (forall e, In e entries -> code (snd e) = leadTrail (snd e)) ->
  (forall s0,
     use [VObject member] s0 =
     (Normal tt, set_middleware (middleware s0 ++ [OnTurnOf (VObject member)]) s0)) /\
  (middleware s = map handlerOf entries ++ OnTurnOf (VObject member) :: later ->
   run code context next s =
   (Rejected (TypeError "plugin.onTurn is not a function"),
    add_log (map Lead (map snd entries)) s)).
Proof.
  intros Ht Hf Hc. split.
  - intros s0. apply use_accepts. constructor; [| constructor].
    simpl. now rewrite Ht.
  - intros Hm. rewrite (run_leadTrail code context next entries _ s Hc Hm).
    simpl. unfold bind at 1. destruct member; simpl; try reflexivity.
    now destruct (Hf f).
Qed.

(** X4.  A set is itself middleware: registered, as an object, in the
    chain of another set, its [onTurn] runs its own handlers in the place
    where it stands, with the rest of the enclosing chain as their terminal
    handler.  The leading edges run in the order of the spliced list and
    the trailing edges in the reverse order. *)
Theorem nested_set_runs_in_place (inner : FnId -> Handler)
    (pre members post : list (bool * FnId)) (g : FnId)
    (context : TurnContext) (next : Terminal) (s : State) :
  code g = setOnTurn inner ->
  (forall e, In e members -> inner (snd e) = leadTrail (snd e)) ->
  (forall e, In e (pre ++ post) -> code (snd e) = leadTrail (snd e)) ->
  middleware s = map handlerOf members ->
  let outer := map handlerOf pre ++ handlerOf (true, g) :: map handlerOf post in
  let ids := map snd (pre ++ members ++ post) in
  runNext code outer context next 0 s =
  (let (c, s1) := next (add_log (map Lead ids) s) in
   match settle c with
   | Fulfilled _ => (Fulfilled tt, add_log (map Trail (rev ids)) s1)
   | Rejected e => (Rejected e, s1)
   end).
Proof.
  intros Hg Hi Hc Hm outer ids. subst outer ids.
  unfold runNext. simpl skipn.
  rewrite runFrom_leadTrail by (intros; apply Hc, in_or_app; now left).
  simpl runFrom. unfold bind at 1. rewrite Hg.
  unfold setOnTurn, onTurn, run, runNext. simpl skipn.
  cbv beta iota zeta delta [bind ret]. simpl middleware. rewrite Hm.
  rewrite <- (app_nil_r (map handlerOf members)).
  rewrite runFrom_leadTrail by assumption.
  simpl runFrom. cbv beta iota zeta delta [bind ret].
  rewrite <- (app_nil_r (map handlerOf post)).
  rewrite runFrom_leadTrail by (intros; apply Hc, in_or_app; now right).
  simpl runFrom. cbv beta iota zeta delta [bind ret].
  rewrite !add_log_app, <- !map_app.
  destruct (next _) as [c s1]. destruct (settle c) as [[]|e]; simpl; auto.
  rewrite !add_log_app. rewrite !map_app, !rev_app_distr, !map_app, <- !app_assoc.
  reflexivity.
Qed.

(** [run] on a chain of [leadTrail] interceptors with, among them, one
    that registers a plugin before it awaits [next()]. *)
Lemma run_registering (before after : list (bool * FnId)) (g : FnId)
    (plugin : Value) (added : MiddlewareHandler)
    (context : TurnContext) (next : Terminal) (s : State) :
  (forall e, In e (before ++ after) -> code (snd e) = leadTrail (snd e)) ->
  code g = registers plugin ->
  normalized plugin = Some added ->
  middleware s = map handlerOf before ++ Fn g :: map handlerOf after ->
  run code context next s =
  (let s' := set_middleware (middleware s ++ [added])
               (add_log (map Lead (map snd before)) s) in
   let (c, s1) := next (add_log (map Lead (map snd after)) s') in
   match settle c with
   | Fulfilled _ =>
       (Fulfilled tt, add_log (map Trail (rev (map snd (before ++ after)))) s1)
   | Rejected e => (Rejected e, s1)
   end).
Proof.
  intros Hc Hg Hp Hm.
  rewrite (run_leadTrail code context next before (Fn g :: map handlerOf after) s);
    [| intros; apply Hc, in_or_app; now left | assumption].
  simpl. unfold bind at 1. rewrite Hg. unfold registers. unfold_monad.
  rewrite (use_accepts [plugin] [added]) by (constructor; auto).
  simpl. rewrite <- (app_nil_r (map handlerOf after)).
  rewrite runFrom_leadTrail by (intros; apply Hc, in_or_app; now right).
  simpl. unfold bind, ret.
  destruct (next _) as [c s1]. destruct (settle c) as [[]|e]; simpl; auto.
  rewrite add_log_app, map_app, rev_app_distr, map_app. reflexivity.
Qed.

(** X5.  An interceptor, anywhere in a chain of instrumented interceptors,
    that registers a plugin while the chain runs, and any terminal handler
    that leaves the list of the set alone.  In that run the plugin is not
    called.  Afterwards it is the last element of the list, and the next
    [run] calls it behind all the handlers that were there: its leading
    edge follows theirs, the terminal handler follows it, and its trailing
    edge is the first to run.  (The registering interceptor registers it
    once more in that second run.) *)
Theorem late_registration_runs_next_time (before after : list (bool * FnId))
    (g : FnId) (entry : bool * FnId)
    (context : TurnContext) (next : Terminal) (s : State) :
  (forall e, In e (before ++ after) -> code (snd e) = leadTrail (snd e)) ->
  code g = registers (pluginOf entry) ->
  code (snd entry) = leadTrail (snd entry) ->
  (forall st, middleware (snd (next st)) = middleware st) ->
  middleware s = map handlerOf before ++ Fn g :: map handlerOf after ->
  let ids := map snd (before ++ after) in
  let first := run code context next s in
  let second := run code context next (snd first) in
  first =
    (let s' := set_middleware (middleware s ++ [handlerOf entry])
                 (add_log (map Lead (map snd before)) s) in
     let (c, s1) := next (add_log (map Lead (map snd after)) s') in
     match settle c with
     | Fulfilled _ => (Fulfilled tt, add_log (map Trail (rev ids)) s1)
     | Rejected e => (Rejected e, s1)
     end) /\
  middleware (snd first) = middleware s ++ [handlerOf entry] /\
  second =
    (let s' := set_middleware (middleware s ++ [handlerOf entry; handlerOf entry])
                 (add_log (map Lead (map snd before)) (snd first)) in
     let (c, s2) := next (add_log (map Lead (map snd after ++ [snd entry])) s') in
     match settle c with
     | Fulfilled _ => (Fulfilled tt, add_log (map Trail (rev (ids ++ [snd entry]))) s2)
     | Rejected e => (Rejected e, s2)
     end).
Proof.
  intros Hc Hg He Hn Hm ids first second.
  assert (H1 : first =
    (let s' := set_middleware (middleware s ++ [handlerOf entry])
                 (add_log (map Lead (map snd before)) s) in
     let (c, s1) := next (add_log (map Lead (map snd after)) s') in
     match settle c with
     | Fulfilled _ => (Fulfilled tt, add_log (map Trail (rev ids)) s1)
     | Rejected e => (Rejected e, s1)
     end)).
  { subst first ids.
    apply (run_registering before after g (pluginOf entry) (handlerOf entry));
      auto using normalized_one. }
  assert (H2 : middleware (snd first) = middleware s ++ [handlerOf entry]).
  { rewrite H1. cbv zeta.
    pose proof (Hn (add_log (map Lead (map snd after))
                      (set_middleware (middleware s ++ [handlerOf entry])
                         (add_log (map Lead (map snd before)) s)))) as Hk.
    destruct (next _) as [c s1]. simpl in Hk.
    destruct (settle c) as [[]|e]; simpl; exact Hk. }
  split; [exact H1 |]. split; [exact H2 |].
  subst second ids.
  rewrite (run_registering before (after ++ [entry]) g (pluginOf entry) (handlerOf entry)
             context next (snd first)); auto using normalized_one.
  - rewrite H2, <- app_assoc. simpl app.
    rewrite !map_app. simpl map. rewrite !app_assoc. reflexivity.
  - intros e Hin. apply in_app_or in Hin. destruct Hin as [Hin|Hin].
    + apply Hc, in_or_app. now left.
    + apply in_app_or in Hin. destruct Hin as [Hin|[<-|[]]]; [| exact He].
      apply Hc, in_or_app. now right.
  - rewrite H2, Hm, map_app, <- app_assoc. reflexivity.
Qed.

(** X6.  A rejection travels up the chain as the rejection of [next()],
    also when it started as a synchronous throw: an interceptor that awaits
    [next()] inside [try]/[catch] handles it, and from there on the chain
    completes as usual: the trailing edges of that interceptor and of the
    ones before it run in reverse order and the promise of [run] is
    fulfilled. *)
Theorem caught_rejection_ends_unwinding (entries : list (bool * FnId))
    (k : bool * FnId) (tail : list MiddlewareHandler)
    (context : TurnContext) (next : Terminal) (s s1 : State) (e : Exn) :
  (forall x, In x entries -> code (snd x) = leadTrail (snd x)) ->
  code (snd k) = leadCatch (snd k) ->
  middleware s = map handlerOf entries ++ handlerOf k :: tail ->
  runNext code (middleware s) context next (S (List.length entries))
    (add_log (map Lead (map snd entries ++ [snd k])) s) = (Rejected e, s1) ->
  run code context next s =
  (Fulfilled tt,
   add_log ([Handled (snd k); Trail (snd k)] ++ map Trail (rev (map snd entries))) s1).
Proof.
  intros Hc Hk Hm Hrej.
  rewrite (run_leadTrail code context next entries _ s Hc Hm).
  unfold runNext in Hrej. rewrite Hm, skipn_behind_one in Hrej.
  rewrite map_app, <- add_log_app in Hrej. simpl map in Hrej.
  simpl runFrom. unfold bind at 1. rewrite invoke_handlerOf, Hk.
  unfold leadCatch, tryCatch. unfold_monad.
  rewrite Hrej. simpl. now rewrite !add_log_app.
Qed.

(** X11.  An interceptor that only returns [next()] is invisible: [run]
    gives the promise of the rest of the chain as it is, so the chain
    behaves as the chain without that interceptor. *)
Theorem pass_through_is_invisible (entries : list (bool * FnId))
    (p : bool * FnId) (tail : list MiddlewareHandler)
    (context : TurnContext) (next : Terminal) (s : State) :
  (forall e, In e entries -> code (snd e) = leadTrail (snd e)) ->
  code (snd p) = passThrough ->
  middleware s = map handlerOf entries ++ handlerOf p :: tail ->
  run code context next s =
  runNext code (map handlerOf entries ++ tail) context next 0 s.
Proof.
  intros Hc Hp Hm.
  rewrite (run_leadTrail code context next entries _ s Hc Hm).
  unfold runNext. simpl skipn. rewrite runFrom_leadTrail by assumption.
  simpl runFrom. unfold bind at 1. rewrite invoke_handlerOf, Hp.
  unfold passThrough. cbv beta iota zeta delta [bind ret].
  destruct (runFrom code context next tail _) as [[[]|e] s1]; reflexivity.
Qed.

End ChainFacts.

Lemma non_callable_onTurn_fails_at_run_witness :
  let s := set_middleware [Fn 1; OnTurnOf (VObject (VNumber 5)); Fn 2] emptyState in
  (truthy (VNumber 5) = true /\
   (forall f, VNumber 5 <> VFunction f) /\
   (forall e, In e [(false, 1)] -> leadTrail (snd e) = leadTrail (snd e)) /\
   middleware s = map handlerOf [(false, 1)] ++ OnTurnOf (VObject (VNumber 5)) :: [Fn 2]) /\
  use [VObject (VNumber 5)] emptyState =
    (Normal tt, set_middleware [OnTurnOf (VObject (VNumber 5))] emptyState) /\
  run leadTrail 0 logicOk s =
    (Rejected (TypeError "plugin.onTurn is not a function"), add_log [Lead 1] s).
Proof.
  cbv zeta.
  assert (H : forall f, VNumber 5 <> VFunction f) by (intros f; discriminate).
  split; [repeat split; try reflexivity; exact H |].
  destruct (non_callable_onTurn_fails_at_run leadTrail [(false, 1)] (VNumber 5) [Fn 2]
              0 logicOk
              (set_middleware [Fn 1; OnTurnOf (VObject (VNumber 5)); Fn 2] emptyState)
              eq_refl H (fun e _ => eq_refl)) as [Hu Hr].
  split; [exact (Hu emptyState) | exact (Hr eq_refl)].
Defined.

Lemma nested_set_runs_in_place_witness :
  let members := [(false, 2); (true, 3)] in
  let s := set_middleware (map handlerOf members) emptyState in
  (nestingTable 0 = setOnTurn leadTrail /\
   (forall e, In e members -> leadTrail (snd e) = leadTrail (snd e)) /\
   (forall e, In e ([(false, 1)] ++ [(false, 4)]) -> nestingTable (snd e) = leadTrail (snd e)) /\
   middleware s = map handlerOf members) /\
  runNext nestingTable [Fn 1; OnTurnOf (VObject (VFunction 0)); Fn 4] 0 logicOk 0 s =
    (Fulfilled tt,
     add_log [Lead 1; Lead 2; Lead 3; Lead 4; Logic; Trail 4; Trail 3; Trail 2; Trail 1] s).
Proof.
  cbv zeta.
  assert (H : forall e, In e ([(false, 1)] ++ [(false, 4)]) ->
                        nestingTable (snd e) = leadTrail (snd e)).
  { intros e [<-|[<-|[]]]; reflexivity. }
  split; [repeat split; try reflexivity; exact H |].
  exact (nested_set_runs_in_place nestingTable leadTrail [(false, 1)]
           [(false, 2); (true, 3)] [(false, 4)] 0 0 logicOk
           (set_middleware [Fn 2; OnTurnOf (VObject (VFunction 3))] emptyState)
           eq_refl (fun e _ => eq_refl) H eq_refl).
Defined.

Lemma late_registration_runs_next_time_witness :
  let list0 := [Fn 1; Fn 0; OnTurnOf (VObject (VFunction 2))] in
  let s := set_middleware list0 emptyState in
  ((forall e, In e ([(false, 1)] ++ [(true, 2)]) -> lateTable (snd e) = leadTrail (snd e)) /\
   lateTable 0 = registers (pluginOf (false, 9)) /\
   lateTable (snd (false, 9)) = leadTrail (snd (false, 9)) /\
   (forall st, middleware (snd (logicOk st)) = middleware st) /\
   middleware s = map handlerOf [(false, 1)] ++ Fn 0 :: map handlerOf [(true, 2)]) /\
  run lateTable 0 logicOk s =
    (Fulfilled tt,
     add_log [Lead 1; Lead 2; Logic; Trail 2; Trail 1]
       (set_middleware (list0 ++ [Fn 9]) emptyState)) /\
  run lateTable 0 logicOk (snd (run lateTable 0 logicOk s)) =
    (Fulfilled tt,
     add_log [Lead 1; Lead 2; Logic; Trail 2; Trail 1;
              Lead 1; Lead 2; Lead 9; Logic; Trail 9; Trail 2; Trail 1]
       (set_middleware (list0 ++ [Fn 9; Fn 9]) emptyState)).
Proof.
  cbv zeta.
  assert (H : forall e, In e ([(false, 1)] ++ [(true, 2)]) ->
                        lateTable (snd e) = leadTrail (snd e)).
  { intros e [<-|[<-|[]]]; reflexivity. }
  assert (Hn : forall st, middleware (snd (logicOk st)) = middleware st)
    by (intros st; reflexivity).
  split; [repeat split; try reflexivity; exact H |].
  destruct (late_registration_runs_next_time lateTable [(false, 1)] [(true, 2)] 0
              (false, 9) 0 logicOk
              (set_middleware [Fn 1; Fn 0; OnTurnOf (VObject (VFunction 2))] emptyState)
              H eq_refl eq_refl Hn eq_refl) as (H1 & _ & H2).
  split; [rewrite H1 | rewrite H2]; reflexivity.
Defined.

Lemma caught_rejection_ends_unwinding_witness :
  let s := set_middleware [Fn 1; Fn 7] emptyState in
  let boom : Terminal := throw (Error "boom") in
  ((forall x, In x [(false, 1)] -> nestingTable (snd x) = leadTrail (snd x)) /\
   nestingTable (snd (false, 7)) = leadCatch (snd (false, 7)) /\
   middleware s = map handlerOf [(false, 1)] ++ handlerOf (false, 7) :: [] /\
   runNext nestingTable (middleware s) 0 boom (S (List.length [(false, 1)]))
     (add_log (map Lead (map snd [(false, 1)] ++ [snd (false, 7)])) s) =
     (Rejected (Error "boom"), add_log [Lead 1; Lead 7] s)) /\
  run nestingTable 0 boom s =
    (Fulfilled tt, add_log [Lead 1; Lead 7; Handled 7; Trail 7; Trail 1] s).
Proof.
  cbv zeta.
  assert (H : forall x, In x [(false, 1)] -> nestingTable (snd x) = leadTrail (snd x)).
  { intros x [<-|[]]; reflexivity. }
  split; [repeat split; try reflexivity; exact H |].
  exact (caught_rejection_ends_unwinding nestingTable [(false, 1)] (false, 7) [] 0
           (throw (Error "boom")) (set_middleware [Fn 1; Fn 7] emptyState) _
           (Error "boom") H eq_refl eq_refl eq_refl).
Defined.

(** ** More on the channel capabilities *)

Ltac split_channel :=
  repeat match goal with
         | |- context [(?x =? ?y)%string] =>
             let E := fresh "E" in
             destruct (x =? y)%string eqn:E;
             [apply String.eqb_eq in E | apply String.eqb_neq in E]
         end.

(** X7.  When the button count is omitted the tests are made for 100
    buttons: they hold exactly on the channels whose limit is 100, and fail
    on the channels with a smaller limit as on the unknown ones. *)
Theorem omitted_count_means_hundred (channelId : string) :
  Channel.supportsSuggestedActions channelId None =
    Channel.supportsSuggestedActions channelId (Some 100%Z) /\
  Channel.supportsCardActions channelId None =
    Channel.supportsCardActions channelId (Some 100%Z) /\
  (Channel.supportsSuggestedActions channelId None = true <->
   In channelId [Channel.slack; Channel.telegram; Channel.emulator]) /\
  (Channel.supportsCardActions channelId None = true <->
   In channelId [Channel.slack; Channel.emulator; Channel.directline;
                 Channel.webchat; Channel.cortana]).
Proof.
  split; [reflexivity |]. split; [reflexivity |]. split; split.
  - unfold Channel.supportsSuggestedActions. simpl. split_channel; simpl;
      try discriminate; intros _; subst; simpl; tauto.
  - simpl. intros [<-|[<-|[<-|[]]]]; reflexivity.
  - unfold Channel.supportsCardActions. simpl. split_channel; simpl;
      try discriminate; intros _; subst; simpl; tauto.
  - simpl. intros [<-|[<-|[<-|[<-|[<-|[]]]]]]; reflexivity.
Qed.

(** X8.  Limits of the capability tests: a test that holds names a channel
    of its switch and a count of at most 100; on every channel of the
    switch the test holds for at most 10 suggested actions, and for at most
    3 card actions. *)
Theorem capability_limits (channelId : string) (n : Z) :
  (Channel.supportsSuggestedActions channelId (Some n) = true ->
   In channelId Channel.suggestedActionChannels /\ (n <= 100)%Z) /\
  (In channelId Channel.suggestedActionChannels -> (n <= 10)%Z ->
   Channel.supportsSuggestedActions channelId (Some n) = true) /\
  (Channel.supportsCardActions channelId (Some n) = true ->
   In channelId Channel.cardActionChannels /\ (n <= 100)%Z) /\
  (In channelId Channel.cardActionChannels -> (n <= 3)%Z ->
   Channel.supportsCardActions channelId (Some n) = true).
Proof.
  split; [| split; [| split]].
  - unfold Channel.supportsSuggestedActions. simpl. split_channel; simpl;
      try discriminate; rewrite Z.leb_le; intros Hn; subst;
      (split; [simpl; tauto | lia]).
  - intros Hin Hn. simpl in Hin.
    destruct Hin as [<-|[<-|[<-|[<-|[<-|[<-|[]]]]]]]; cbn -[Z.leb];
      apply Z.leb_le; lia.
  - unfold Channel.supportsCardActions. simpl. split_channel; simpl;
      try discriminate; rewrite Z.leb_le; intros Hn; subst;
      (split; [simpl; tauto | lia]).
  - intros Hin Hn. simpl in Hin.
    destruct Hin as [<-|[<-|[<-|[<-|[<-|[<-|[<-|[<-|[]]]]]]]]]; cbn -[Z.leb];
      apply Z.leb_le; lia.
Qed.

Lemma capability_limits_witness :
  (Channel.supportsSuggestedActions "kik" (Some 20%Z) = true /\
   In "telegram" Channel.suggestedActionChannels /\ (7 <= 10)%Z /\
   Channel.supportsCardActions "webchat" (Some 50%Z) = true /\
   In "msteams" Channel.cardActionChannels /\ (3 <= 3)%Z) /\
  (In "kik" Channel.suggestedActionChannels /\ (20 <= 100)%Z) /\
  Channel.supportsSuggestedActions "telegram" (Some 7%Z) = true /\
  (In "webchat" Channel.cardActionChannels /\ (50 <= 100)%Z) /\
  Channel.supportsCardActions "msteams" (Some 3%Z) = true.
Proof.
  assert (H1 : In "telegram" Channel.suggestedActionChannels) by (simpl; tauto).
  assert (H2 : In "msteams" Channel.cardActionChannels) by (simpl; tauto).
  assert (H3 : (7 <= 10)%Z) by lia.
  assert (H4 : (3 <= 3)%Z) by lia.
  split; [repeat split; assumption || reflexivity |].
  split; [| split; [| split]].
  - exact (proj1 (capability_limits "kik" 20%Z) eq_refl).
  - exact (proj1 (proj2 (capability_limits "telegram" 7%Z)) H1 H3).
  - exact (proj1 (proj2 (proj2 (capability_limits "webchat" 50%Z))) eq_refl).
  - exact (proj2 (proj2 (proj2 (capability_limits "msteams" 3%Z))) H2 H4).
Defined.

(** X9.  [getChannelId] gives the channel id of the activity of the
    context when there is one, and the empty string when there is none;
    with the empty string the capability tests take their default branch:
    no suggested actions, no card actions, a message feed. *)
Theorem getChannelId_defaults (context : TurnContextObj) :
  (forall c, act_channelId (tc_activity context) = Some c ->
             Channel.getChannelId context = c) /\
  (act_channelId (tc_activity context) = None ->
   Channel.getChannelId context = EmptyString) /\
  (Channel.getChannelId context = EmptyString ->
   forall buttonCnt,
     Channel.supportsSuggestedActions (Channel.getChannelId context) buttonCnt = false /\
     Channel.supportsCardActions (Channel.getChannelId context) buttonCnt = false /\
     Channel.hasMessageFeed (Channel.getChannelId context) = true).
Proof.
  split; [| split].
  - intros c Hc. unfold Channel.getChannelId. rewrite Hc. simpl.
    destruct (String.eqb c EmptyString) eqn:E; simpl; [| reflexivity].
    apply String.eqb_eq in E. now subst.
  - intros Hc. unfold Channel.getChannelId. now rewrite Hc.
  - intros ->. intros buttonCnt. repeat split.
Qed.

Lemma getChannelId_defaults_witness :
  let context := mkContext emptyActivity false [] [] [] [] in
  (act_channelId (tc_activity (mkContext (req_body helloRequest) false [] [] [] [])) =
     Some "emulator" /\
   act_channelId (tc_activity context) = None /\
   Channel.getChannelId context = EmptyString) /\
  Channel.getChannelId (mkContext (req_body helloRequest) false [] [] [] []) = "emulator" /\
  Channel.getChannelId context = EmptyString /\
  Channel.supportsCardActions (Channel.getChannelId context) (Some 1%Z) = false.
Proof.
  cbv zeta. split; [repeat split |]. split; [| split].
  - exact (proj1 (getChannelId_defaults (mkContext (req_body helloRequest) false [] [] [] []))
             "emulator" eq_refl).
  - exact (proj1 (proj2 (getChannelId_defaults (mkContext emptyActivity false [] [] [] [])))
             eq_refl).
  - exact (proj1 (proj2 (proj2 (proj2 (getChannelId_defaults
             (mkContext emptyActivity false [] [] [] []))) eq_refl (Some 1%Z)))).
Defined.

Lemma pass_through_is_invisible_witness :
  let s := set_middleware [Fn 1; Fn 5; Fn 2] emptyState in
  ((forall e, In e [(false, 1)] -> nestingTable (snd e) = leadTrail (snd e)) /\
   nestingTable (snd (false, 5)) = passThrough /\
   middleware s = map handlerOf [(false, 1)] ++ handlerOf (false, 5) :: [Fn 2]) /\
  run nestingTable 0 logicOk s =
    (Fulfilled tt, add_log [Lead 1; Lead 2; Logic; Trail 2; Trail 1] s).
Proof.
  cbv zeta.
  assert (H : forall e, In e [(false, 1)] -> nestingTable (snd e) = leadTrail (snd e)).
  { intros e [<-|[]]; reflexivity. }
  split; [repeat split; try reflexivity; exact H |].
  rewrite (pass_through_is_invisible nestingTable [(false, 1)] (false, 5) [Fn 2] 0 logicOk
             (set_middleware [Fn 1; Fn 5; Fn 2] emptyState) H eq_refl eq_refl).
  reflexivity.
Defined.

(** X10.  The message feed and the suggested actions: cortana is the only
    channel without a message feed, and every channel on which suggested
    actions are supported, for any count, has one. *)
Theorem suggested_actions_need_message_feed (channelId : string) :
  (Channel.hasMessageFeed channelId = false <-> channelId = Channel.cortana) /\
  (forall buttonCnt,
     Channel.supportsSuggestedActions channelId buttonCnt = true ->
     Channel.hasMessageFeed channelId = true).
Proof.
  split; [split |].
  - unfold Channel.hasMessageFeed. split_channel; [auto | discriminate].
  - intros ->. reflexivity.
  - intros buttonCnt. unfold Channel.hasMessageFeed.
    destruct (channelId =? Channel.cortana) eqn:E; [| reflexivity].
    apply String.eqb_eq in E. subst. destruct buttonCnt; discriminate.
Qed.

Lemma suggested_actions_need_message_feed_witness :
  Channel.supportsSuggestedActions "kik" (Some 20%Z) = true /\
  Channel.hasMessageFeed "kik" = true.
Proof.
  split; [reflexivity |].
  exact (proj2 (suggested_actions_need_message_feed "kik") (Some 20%Z) eq_refl).
Defined.
